(** * Patient-insights dashboard: the metric transformers of [src/app/page.tsx]

    A shallow embedding of the data-to-chart mapping layer of the dashboard
    (lines 23-96 of [page.tsx], and the two computed insight percentages of
    lines 339 and 353), together with the JavaScript built-ins it calls.

    - a JavaScript [number] is an IEEE-754 binary64 value, taken from the
      Standard Library's [SpecFloat] with precision 53 and exponent bound 1024;
    - a string is the sequence of the bytes of its UTF-8 encoding; the
      literals of [page.tsx] are ASCII, and finding, removing or cutting at an
      ASCII literal gives the encoding of what JavaScript gives;
    - a [Record<string, number>] is the list of its own properties in the
      order [Object.entries] enumerates them;
    - a chart record (an object literal) is the list of its properties;
    - a built-in that can throw returns a [completion]. *)

From Stdlib Require Import ZArith List Bool Ascii String Lia Permutation.
From Stdlib Require Import Floats.SpecFloat.
Import ListNotations.

Local Open Scope list_scope.
Local Open Scope string_scope.

(** ** JavaScript built-ins *)

Module JS.

(** *** Numbers *)

Definition number : Type := spec_float.

Definition prec : Z := 53.
Definition emax : Z := 1024.

Definition NaN : number := S754_nan.

(** The number denoted by an integer literal. *)
Definition of_Z (z : Z) : number := binary_normalize prec emax z 0 false.

Definition Number_add : number -> number -> number := SFadd prec emax.
Definition Number_multiply : number -> number -> number := SFmul prec emax.
Definition Number_divide : number -> number -> number := SFdiv prec emax.
Definition Number_lessThan : number -> number -> bool := SFltb.

Definition is_finite (x : number) : bool :=
  match x with
  | S754_zero _ | S754_finite _ _ _ => true
  | S754_infinity _ | S754_nan => false
  end.

(** *** Completions *)

Inductive error : Type := RangeError | TypeError.

Inductive completion (A : Type) : Type :=
| Normal (a : A)
| Throw (e : error).

Arguments Normal {A} a.
Arguments Throw {A} e.

Definition bind {A B : Type} (c : completion A) (k : A -> completion B)
  : completion B :=
  match c with
  | Normal a => k a
  | Throw e => Throw e
  end.

Notation "x <- c ;; k" := (bind c (fun x => k))
  (at level 61, c at next level, right associativity).

(** *** Values and objects *)

Inductive value : Type :=
| VUndefined
| VNumber (x : number)
| VString (s : string).

(** An object literal: its own properties, in creation order. *)
Definition object : Type := list (string * value).

(** A [Record<string, number>] parsed from JSON: its own properties in the
    order in which [Object.entries] enumerates them. The keys of an object
    are pairwise distinct; the lemmas that depend on it assume
    [NoDup (keys o)]. *)
Definition record : Type := list (string * number).

Fixpoint assoc {A : Type} (o : list (string * A)) (k : string) : option A :=
  match o with
  | [] => None
  | (k', v) :: o' => if String.eqb k' k then Some v else assoc o' k
  end.

(** [o[k]] on an object literal. *)
Definition Get (o : object) (k : string) : value :=
  match assoc o k with
  | Some v => v
  | None => VUndefined
  end.

(** [o[k]] on a record of numbers: [None] is [undefined]. *)
Definition lookup (o : record) (k : string) : option number := assoc o k.

Definition keys {A : Type} (o : list (string * A)) : list string := map fst o.

Definition Object_entries (o : record) : list (string * number) := o.

(** [ToNumber] on a value that is a number or [undefined]. *)
Definition ToNumber (v : option number) : number :=
  match v with
  | Some x => x
  | None => NaN
  end.

(** The operators [+], [*] and [/] apply [ToNumber] to operands that are
    numbers or [undefined], and then [Number_add], [Number_multiply] and
    [Number_divide]. *)

Definition to_value (v : option number) : value :=
  match v with
  | Some x => VNumber x
  | None => VUndefined
  end.

(** *** Arrays *)

Definition Array_slice {A : Type} (start end_ : nat) (l : list A) : list A :=
  firstn (end_ - start) (skipn start l).

Fixpoint map_from {A B : Type} (i : nat) (f : A -> nat -> B) (l : list A)
  : list B :=
  match l with
  | [] => []
  | a :: l' => f a i :: map_from (S i) f l'
  end.

(** [l.map((a, i) => f a i)] *)
Definition Array_map {A B : Type} (f : A -> nat -> B) (l : list A) : list B :=
  map_from 0 f l.

(** [l[i]] on an array of strings. *)
Definition index (l : list string) (i : nat) : value :=
  match nth_error l i with
  | Some s => VString s
  | None => VUndefined
  end.

(** *** Strings *)

Fixpoint drop (n : nat) (s : string) : string :=
  match n, s with
  | O, _ => s
  | S _, EmptyString => EmptyString
  | S n', String _ s' => drop n' s'
  end.

Fixpoint take (n : nat) (s : string) : string :=
  match n, s with
  | O, _ => EmptyString
  | S _, EmptyString => EmptyString
  | S n', String c s' => String c (take n' s')
  end.

(** [StringIndexOf(s, searchValue, 0)]: the smallest position at which
    [searchValue] occurs in [s]. *)
Fixpoint StringIndexOf (s searchValue : string) : option nat :=
  if prefix searchValue s then Some 0
  else match s with
       | EmptyString => None
       | String _ s' => option_map S (StringIndexOf s' searchValue)
       end.

(** [s.replace(searchValue, replaceValue)] for a string pattern and a
    replacement without [$]: only the first occurrence is replaced. *)
Definition String_replace (s searchValue replaceValue : string) : string :=
  match StringIndexOf s searchValue with
  | None => s
  | Some pos =>
      take pos s ++ replaceValue ++ drop (pos + String.length searchValue) s
  end.

Fixpoint split_from (fuel : nat) (s sep : string) : list string :=
  match fuel with
  | O => [s]
  | S fuel' =>
      match StringIndexOf s sep with
      | None => [s]
      | Some pos =>
          take pos s :: split_from fuel' (drop (pos + String.length sep) s) sep
      end
  end.

Fixpoint code_units (s : string) : list string :=
  match s with
  | EmptyString => []
  | String c s' => String c EmptyString :: code_units s'
  end.

(** [s.split(sep)] for a string separator and no limit. Every cut consumes
    at least one code unit of [s], so [length s] cuts are enough. *)
Definition String_split (s sep : string) : list string :=
  match sep with
  | EmptyString => code_units s
  | String _ _ => split_from (String.length s) s sep
  end.

End JS.

Import JS.

(** ** [page.tsx] *)

Module COLORS.
Definition cyan := "#00d4ff".
Definition purple := "#a855f7".
Definition pink := "#ec4899".
Definition green := "#10b981".
Definition orange := "#f97316".
Definition yellow := "#fbbf24".
Definition blue := "#3b82f6".
Definition red := "#ef4444".
Definition teal := "#14b8a6".
Definition indigo := "#6366f1".
End COLORS.

Definition CHART_COLORS : list string :=
  [ COLORS.cyan; COLORS.purple; COLORS.pink; COLORS.green;
    COLORS.orange; COLORS.yellow; COLORS.blue; COLORS.red;
    COLORS.teal; COLORS.indigo ].

Record DashboardData : Type := {
  totalPatients : number;
  genderDistribution : record;
  ethnicityDistribution : record;
  ageGroups : record;
  prescriberStats : record;
  surgeryStats : record;
  contactAvailability : record
}.

(** [CHART_COLORS[i % CHART_COLORS.length]] *)
Definition palette (i : nat) : value :=
  index CHART_COLORS (i mod List.length CHART_COLORS).

(** Lines 60-92: the five chart sequences. *)
Definition genderData (data : DashboardData) : list object :=
  Array_map
    (fun '(name, value) (_ : nat) =>
       [ ("name", VString name);
         ("value", VNumber value);
         ("fill", VString (if name =? "Female" then COLORS.pink
                           else if name =? "Male" then COLORS.cyan
                           else COLORS.purple)) ])
    (Object_entries data.(genderDistribution)).

Definition ageData (data : DashboardData) : list object :=
  Array_map
    (fun '(name, value) i =>
       [ ("name", VString name);
         ("value", VNumber value);
         ("fill", palette i) ])
    (Object_entries data.(ageGroups)).

Definition cleanLabel (name : string) : string :=
  String_replace (String_replace name "White - " "")
                 "Asian or Asian British - " "".

Definition ethnicityData (data : DashboardData) : list object :=
  Array_map
    (fun '(name, value) i =>
       [ ("name", VString (cleanLabel name));
         ("value", VNumber value);
         ("fill", palette i) ])
    (Array_slice 0 6 (Object_entries data.(ethnicityDistribution))).

Definition prescriberData (data : DashboardData) : list object :=
  Array_map
    (fun '(name, value) i =>
       [ ("name", index (String_split name ",") 0);
         ("patients", VNumber value);
         ("fill", palette i) ])
    (Array_slice 0 5 (Object_entries data.(prescriberStats))).

Definition contactData (data : DashboardData) : list object :=
  [ [ ("name", VString "Mobile Phone");
      ("value", to_value (lookup data.(contactAvailability) "mobilePhone"));
      ("fill", VString COLORS.cyan) ];
    [ ("name", VString "Home Phone");
      ("value", to_value (lookup data.(contactAvailability) "homePhone"));
      ("fill", VString COLORS.purple) ];
    [ ("name", VString "No Contact");
      ("value", to_value (lookup data.(contactAvailability) "noContact"));
      ("fill", VString COLORS.pink) ] ].

(** ** Number formatting *)

Module Fmt.

Local Open Scope Z_scope.

Definition digit (d : Z) : ascii := ascii_of_nat (48 + Z.to_nat d).

Fixpoint digits_from (fuel : nat) (n : Z) (acc : string) : string :=
  let acc' := String (digit (n mod 10)) acc in
  match fuel with
  | O => acc'
  | S fuel' => if n <? 10 then acc' else digits_from fuel' (n / 10) acc'
  end.

(** The digits of the decimal representation of [n >= 0]; a number below
    [2 ^ (k + 1)] has at most [k + 1] decimal digits. *)
Definition decimal (n : Z) : string :=
  digits_from (Z.to_nat (Z.log2 n)) n "".

Fixpoint zeros (n : nat) : string :=
  match n with
  | O => ""
  | S n' => String "0" (zeros n')
  end.

(** The mathematical value of a finite non-zero double [m * 2 ^ e], as a
    fraction [(N, D)] with [D > 0]. *)
Definition ratio (m : positive) (e : Z) : Z * Z :=
  match e with
  | Zneg p => (Zpos m, 2 ^ Zpos p)
  | _ => (Zpos m * 2 ^ e, 1)
  end.

(** Step 11 of [Number.prototype.toFixed]: the integer [n] for which
    [n / 10^f - N/D] is as close to zero as possible, the larger one when
    there are two. *)
Definition nearest (N D : Z) (f : nat) : Z :=
  (2 * N * 10 ^ Z.of_nat f + D) / (2 * D).

(** Step 11 of [Number.prototype.toFixed], the layout: the digits of [n],
    padded on the left with zeros to [f + 1] digits, with a point before the
    last [f] digits. *)
Definition fixed_notation (n : Z) (f : nat) : string :=
  let m := decimal n in
  match f with
  | O => m
  | S _ =>
      let k := String.length m in
      let m := if (k <=? f)%nat then (zeros (f + 1 - k) ++ m)%string else m in
      let k := if (k <=? f)%nat then (f + 1)%nat else k in
      (take (k - f) m ++ "." ++ drop (k - f) m)%string
  end.

(** Whether the integer [v] converts to the double [x]. *)
Definition rounds_to (v : Z) (x : number) : bool := SFeqb (of_Z v) x.

Definition closer (X : Z) (a b : option (Z * Z)) : option (Z * Z) :=
  match a, b with
  | None, _ => b
  | _, None => a
  | Some (s1, v1), Some (s2, v2) =>
      match Z.abs (v1 - X) ?= Z.abs (v2 - X) with
      | Lt => a
      | Gt => b
      | Eq => if Z.even s1 then a else b
      end
  end.

(** The [k]-digit integers [s] with [s * 10^(n - k)] converting to [x], for
    a given exponent [n]: only the two neighbours of [X / 10^(n - k)] can be
    closest to [X]. *)
Definition try_digits (X : Z) (x : number) (n k : Z) : option (Z * Z) :=
  let p := 10 ^ (n - k) in
  let ok s :=
    if (10 ^ (k - 1) <=? s) && (s <? 10 ^ k) && rounds_to (s * p) x
    then Some (s, s * p) else None in
  closer X (ok (X / p)) (ok (X / p + 1)).

Fixpoint shortest (fuel : nat) (X : Z) (x : number) (d k : Z) : Z * Z * Z :=
  match fuel with
  | O => (X, d, d)
  | S fuel' =>
      match closer X (try_digits X x d k) (try_digits X x (d + 1) k) with
      | Some (s, v) => (s, Z.of_nat (String.length (decimal v)), k)
      | None => shortest fuel' X x d (k + 1)
      end
  end.

(** [Number::toString(x, 10)] on the arguments that [toFixed] passes to it:
    a value that is not finite, or a positive double of at least [10^21],
    which is an integer [X] and is written in exponential notation with the
    fewest digits [s] that convert back to [x]. *)
Definition Number_toString (x : number) : string :=
  match x with
  | S754_nan => "NaN"
  | S754_infinity false => "Infinity"
  | S754_infinity true => "-Infinity"
  | S754_zero _ => "0"
  | S754_finite _ m e =>
      let X := fst (ratio m e) in
      let d := Z.of_nat (String.length (decimal X)) in
      let '(s, n, k) := shortest (Z.to_nat d - 1) X (S754_finite false m e) d 1 in
      let ds := decimal s in
      ((if (k =? 1)%Z then ds else take 1 ds ++ "." ++ drop 1 ds)
         ++ "e+" ++ decimal (n - 1))%string
  end.

(** [x.toFixed(fractionDigits)] *)
Definition Number_toFixed (x : number) (fractionDigits : Z)
  : completion string :=
  if (fractionDigits <? 0) || (100 <? fractionDigits) then Throw RangeError
  else
    let f := Z.to_nat fractionDigits in
    match x with
    | S754_nan | S754_infinity _ => Normal (Number_toString x)
    | S754_zero _ => Normal (fixed_notation 0 f)
    | S754_finite s m e =>
        let '(N, D) := ratio m e in
        let sign := if s then "-" else "" in
        if 10 ^ 21 * D <=? N
        then Normal (sign ++ Number_toString (S754_finite false m e))%string
        else Normal (sign ++ fixed_notation (nearest N D f) f)%string
    end.

End Fmt.

Import Fmt.

(** ** Derived percentages *)

(** [(numerator / data.totalPatients) * 100] *)
Definition percentage (numerator : number) (data : DashboardData) : number :=
  Number_multiply (Number_divide numerator data.(totalPatients)) (of_Z 100).

(** Lines 94-96. *)
Definition femalePercent (data : DashboardData) : completion string :=
  Number_toFixed
    (percentage (ToNumber (lookup data.(genderDistribution) "Female")) data) 1.

Definition malePercent (data : DashboardData) : completion string :=
  Number_toFixed
    (percentage (ToNumber (lookup data.(genderDistribution) "Male")) data) 1.

Definition contactRate (data : DashboardData) : completion string :=
  Number_toFixed
    (percentage
       (Number_add (ToNumber (lookup data.(contactAvailability) "homePhone"))
                   (ToNumber (lookup data.(contactAvailability) "mobilePhone")))
       data) 1.

(** Line 339: the sum of the three fixed age buckets, and the text of the
    Aging Population insight. *)
Definition over60 (data : DashboardData) : number :=
  Number_add
    (Number_add (ToNumber (lookup data.(ageGroups) "60-74"))
                (ToNumber (lookup data.(ageGroups) "75-99")))
    (ToNumber (lookup data.(ageGroups) "100+")).

Definition agingPercent (data : DashboardData) : completion string :=
  Number_toFixed (percentage (over60 data) data) 0.

Definition agingDescription (data : DashboardData) : completion string :=
  p <- agingPercent data ;;
  Normal (p ++ "% of patients are over 60 years old, indicating significant elderly care needs.")%string.

(** Line 353: the text of the Contact Gap insight. *)
Definition noContactPercent (data : DashboardData) : completion string :=
  Number_toFixed
    (percentage (ToNumber (lookup data.(contactAvailability) "noContact")) data)
    0.

Definition contactGapDescription (data : DashboardData) : completion string :=
  p <- noContactPercent data ;;
  Normal (p ++ "% of patients have no contact information on file, a critical communication barrier.")%string.

(** ** Everything the page derives from a snapshot *)

Record Derived : Type := {
  d_genderData : list object;
  d_ageData : list object;
  d_ethnicityData : list object;
  d_prescriberData : list object;
  d_contactData : list object;
  d_femalePercent : string;
  d_malePercent : string;
  d_contactRate : string;
  d_agingDescription : string;
  d_contactGapDescription : string
}.

Definition Dashboard_derived (data : DashboardData) : completion Derived :=
  female <- femalePercent data ;;
  male <- malePercent data ;;
  rate <- contactRate data ;;
  aging <- agingDescription data ;;
  gap <- contactGapDescription data ;;
  Normal {| d_genderData := genderData data;
            d_ageData := ageData data;
            d_ethnicityData := ethnicityData data;
            d_prescriberData := prescriberData data;
            d_contactData := contactData data;
            d_femalePercent := female;
            d_malePercent := male;
            d_contactRate := rate;
            d_agingDescription := aging;
            d_contactGapDescription := gap |}.

(** ** Vocabulary of the specification *)

Module Spec.

(** The shape [{ name: string, value: number, fill: color }]. *)
Definition ChartRecord (r : object) : Prop :=
  exists (name : string) (value : number) (fill : string),
    Get r "name" = VString name /\
    Get r "value" = VNumber value /\
    Get r "fill" = VString fill /\ In fill CHART_COLORS.

(** The substring of [s] before its first comma, all of [s] without one. *)
Fixpoint before_comma (s : string) : string :=
  match s with
  | EmptyString => EmptyString
  | String c s' =>
      if Ascii.eqb c "," then EmptyString else String c (before_comma s')
  end.

(** [pat] occurs in [s]. *)
Definition occurs (pat s : string) : Prop :=
  exists a b : string, s = a ++ pat ++ b.

(** Stripping a literal prefix, if present. *)
Definition strip_prefix (pat s : string) : string :=
  if prefix pat s then drop (String.length pat) s else s.

(** Label cleanup as prefix stripping. *)
Definition strip_prefixes (s : string) : string :=
  strip_prefix "Asian or Asian British - " (strip_prefix "White - " s).

(** Removing the first occurrence of [pat], wherever it is. *)
Fixpoint remove_first (pat s : string) : string :=
  if prefix pat s then drop (String.length pat) s
  else match s with
       | EmptyString => EmptyString
       | String c s' => String c (remove_first pat s')
       end.

(** The sum of a sequence of counts, from the left. *)
Definition total (l : list number) : number :=
  fold_left Number_add l (of_Z 0).

(** The number held by a value, [NaN] for anything else. *)
Definition count_of (v : value) : number :=
  match v with
  | VNumber x => x
  | _ => NaN
  end.

Local Open Scope Z_scope.

(** The mathematical magnitude of [x] is finite and below the integer [B]. *)
Definition magnitude_below (B : Z) (x : number) : bool :=
  match x with
  | S754_zero _ => 0 <? B
  | S754_finite _ m e => let '(N, D) := ratio m e in N <? B * D
  | _ => false
  end.

(** The numeral of [n / 10^f] with exactly [f] decimal places, for [f] at
    most one. *)
Definition numeral (n : Z) (f : nat) : string :=
  match f with
  | O => decimal n
  | S _ => (decimal (n / 10) ++ "." ++ decimal (n mod 10))%string
  end.

(** [str] displays the double [x] rounded to [f] decimal places: the
    multiple [n / 10^f] nearest to the magnitude of [x], the larger one when
    two are equally near, behind the sign of [x]. *)
Definition rounded_to (f : nat) (x : number) (str : string) : Prop :=
  match x with
  | S754_zero _ => str = numeral 0 f
  | S754_finite s m e =>
      let '(N, D) := ratio m e in
      exists n : Z,
        2 * D * n <= 2 * N * 10 ^ Z.of_nat f + D < 2 * D * (n + 1) /\
        str = ((if s then "-" else "") ++ numeral n f)%string
  | _ => False
  end.

(** The display [c] is the double [x] rounded to [f] decimal places: [c] is
    what [toFixed] makes of [x], which below [10^21] is the rounding of [x]
    to [f] places. *)
Definition rounded_display (f : nat) (x : number) (c : completion string)
  : Prop :=
  c = Number_toFixed x (Z.of_nat f) /\
  (magnitude_below (10 ^ 21) x = true ->
   exists str : string, c = Normal str /\ rounded_to f x str).

Definition non_numeric (str : string) : Prop :=
  str = "NaN" \/ str = "Infinity" \/ str = "-Infinity".

End Spec.

Import Spec.

(** ** Snapshots used as examples *)

Module Examples.

Definition counts (l : list (string * Z)) : record :=
  map (fun '(k, z) => (k, of_Z z)) l.

(** The snapshot of the specification's worked examples. *)
Definition thousand : DashboardData :=
  {| totalPatients := of_Z 1000;
     genderDistribution := counts [("Female", 520%Z); ("Male", 480%Z)];
     ethnicityDistribution :=
       counts [("White - British", 700%Z);
               ("Asian or Asian British - Indian", 120%Z);
               ("Other ethnic group", 180%Z)];
     ageGroups := counts [("60-74", 200%Z); ("75-99", 100%Z); ("100+", 10%Z)];
     prescriberStats := counts [("Smith, J", 5%Z); ("Jones", 7%Z)];
     surgeryStats := counts [("Rother House", 710%Z)];
     contactAvailability :=
       counts [("mobilePhone", 600%Z); ("homePhone", 150%Z);
               ("noContact", 250%Z)] |}.

Definition set_totalPatients (t : number) (d : DashboardData) :=
  {| totalPatients := t;
     genderDistribution := d.(genderDistribution);
     ethnicityDistribution := d.(ethnicityDistribution);
     ageGroups := d.(ageGroups);
     prescriberStats := d.(prescriberStats);
     surgeryStats := d.(surgeryStats);
     contactAvailability := d.(contactAvailability) |}.

Definition set_ethnicityDistribution (r : record) (d : DashboardData) :=
  {| totalPatients := d.(totalPatients);
     genderDistribution := d.(genderDistribution);
     ethnicityDistribution := r;
     ageGroups := d.(ageGroups);
     prescriberStats := d.(prescriberStats);
     surgeryStats := d.(surgeryStats);
     contactAvailability := d.(contactAvailability) |}.

Definition set_ageGroups (r : record) (d : DashboardData) :=
  {| totalPatients := d.(totalPatients);
     genderDistribution := d.(genderDistribution);
     ethnicityDistribution := d.(ethnicityDistribution);
     ageGroups := r;
     prescriberStats := d.(prescriberStats);
     surgeryStats := d.(surgeryStats);
     contactAvailability := d.(contactAvailability) |}.

Definition set_surgeryStats (r : record) (d : DashboardData) :=
  {| totalPatients := d.(totalPatients);
     genderDistribution := d.(genderDistribution);
     ethnicityDistribution := d.(ethnicityDistribution);
     ageGroups := d.(ageGroups);
     prescriberStats := d.(prescriberStats);
     surgeryStats := r;
     contactAvailability := d.(contactAvailability) |}.

Definition set_contactAvailability (r : record) (d : DashboardData) :=
  {| totalPatients := d.(totalPatients);
     genderDistribution := d.(genderDistribution);
     ethnicityDistribution := d.(ethnicityDistribution);
     ageGroups := d.(ageGroups);
     prescriberStats := d.(prescriberStats);
     surgeryStats := d.(surgeryStats);
     contactAvailability := r |}.

End Examples.

(** ** The rendered view (lines 98-474)

    An element is its tag, its class name and its children; a child that is
    [undefined] is kept as such. A chart is represented by what [page.tsx]
    computes for it: the array given as [data], the [dataKey] of its [Pie] or
    [Bar], and one [Cell] per record; its other props are constants and
    callbacks. [toLocaleString] formats a number in the locale of the
    browser and is a parameter of the view. *)

Module View.

#[warning="-register-all"]
Inductive node : Type :=
| Undefined
| Text (s : string)
| Element (tag className : string) (children : list node).

(** The [color] prop of a stat card: ['cyan' | 'pink' | 'green' | 'purple' |
    'orange']. *)
Inductive color : Type := Cyan | Pink | Green | Purple | Orange.

Definition colorClasses (c : color) : string :=
  match c with
  | Cyan => "from-cyan-500/20 to-cyan-500/5 border-cyan-500/30"
  | Pink => "from-pink-500/20 to-pink-500/5 border-pink-500/30"
  | Green => "from-green-500/20 to-green-500/5 border-green-500/30"
  | Purple => "from-purple-500/20 to-purple-500/5 border-purple-500/30"
  | Orange => "from-orange-500/20 to-orange-500/5 border-orange-500/30"
  end.

(** Lines 421-449. [subvalue && <div>...</div>] is [subvalue] itself when it
    is [undefined] or the empty string. *)
Definition StatCard (label value : string) (subvalue : option string)
           (icon : string) (c : color) : node :=
  Element "div"
    ("stat-card glass-card p-6 bg-gradient-to-br " ++ colorClasses c
       ++ " transition-all hover:scale-[1.02]")
    [ Element "div" "text-3xl md:text-4xl font-bold mb-1 pulse-number"
        [Text value];
      Element "div" "text-white/50 text-sm" [Text label];
      match subvalue with
      | None => Undefined
      | Some EmptyString => Text EmptyString
      | Some s => Element "div" "text-white/30 text-xs mt-1" [Text s]
      end ].

(** Lines 452-474. *)
Definition InsightCard (icon title description highlight highlightLabel : string)
  : node :=
  Element "div" "glass-card p-6 hover:bg-white/5 transition-all"
    [ Element "h4" "text-lg font-semibold mb-2" [Text title];
      Element "p" "text-white/60 text-sm mb-4 leading-relaxed"
        [Text description];
      Element "div" "pt-4 border-t border-white/10"
        [ Element "div" "text-2xl font-bold gradient-text" [Text highlight];
          Element "div" "text-white/40 text-xs" [Text highlightLabel] ] ].

Record chart : Type := {
  chart_data : list object;
  chart_dataKey : string;
  chart_cells : list (string * value)
}.

(** [data.map((entry, index) => <Cell key={`cell-${index}`} fill={entry.fill} />)] *)
Definition cells (data : list object) : list (string * value) :=
  Array_map
    (fun entry index =>
       ("cell-" ++ decimal (Z.of_nat index), Get entry "fill"))
    data.

Definition genderChart (data : DashboardData) : chart :=
  {| chart_data := genderData data;
     chart_dataKey := "value";
     chart_cells := cells (genderData data) |}.

Definition ageChart (data : DashboardData) : chart :=
  {| chart_data := ageData data;
     chart_dataKey := "value";
     chart_cells := cells (ageData data) |}.

Definition prescriberChart (data : DashboardData) : chart :=
  {| chart_data := prescriberData data;
     chart_dataKey := "patients";
     chart_cells := cells (prescriberData data) |}.

Definition contactChart (data : DashboardData) : chart :=
  {| chart_data := contactData data;
     chart_dataKey := "value";
     chart_cells := cells (contactData data) |}.

Definition ethnicityChart (data : DashboardData) : chart :=
  {| chart_data := ethnicityData data;
     chart_dataKey := "value";
     chart_cells := cells (ethnicityData data) |}.

(** Line 296, the label of a slice of the contact pie:
    [({ percent }) => `${(percent * 100).toFixed(0)}%`]. *)
Definition contactLabel (percent : number) : completion string :=
  p <- Number_toFixed (Number_multiply percent (of_Z 100)) 0 ;;
  Normal (p ++ "%").

Record view : Type := {
  header : node;
  stat_cards : list node;
  gender_chart : chart;
  age_chart : chart;
  prescriber_chart : chart;
  contact_chart : chart;
  insight_cards : list node;
  ethnicity_chart : chart;
  footer : node
}.

Inductive screen : Type :=
| Loading
| Loaded (v : view).

Section Render.

Variable toLocaleString : number -> string.

(** [v.toLocaleString()] on a property that may be absent: a method call on
    [undefined] throws a [TypeError]. *)
Definition call_toLocaleString (v : option number) : completion string :=
  match v with
  | Some x => Normal (toLocaleString x)
  | None => Throw TypeError
  end.

(** Lines 42-418: the component, as a function of its state [data]. *)
Definition Dashboard (data : option DashboardData) : completion screen :=
  match data with
  | None => Normal Loading
  | Some data =>
      female <- femalePercent data ;;
      male <- malePercent data ;;
      rate <- contactRate data ;;
      femaleCount <-
        call_toLocaleString (lookup data.(genderDistribution) "Female") ;;
      maleCount <-
        call_toLocaleString (lookup data.(genderDistribution) "Male") ;;
      aging <- agingDescription data ;;
      gap <- contactGapDescription data ;;
      unreachable <-
        call_toLocaleString (lookup data.(contactAvailability) "noContact") ;;
      Normal
        (Loaded
           {| header :=
                Element "p" "text-white/50 text-lg max-w-2xl mx-auto"
                  [ Text "Comprehensive analysis of ";
                    Text (toLocaleString data.(totalPatients));
                    Text " unique patients" ];
              stat_cards :=
                [ StatCard "Total Patients"
                    (toLocaleString data.(totalPatients)) None "" Cyan;
                  StatCard "Female Patients" (female ++ "%")
                    (Some femaleCount) "" Pink;
                  StatCard "Male Patients" (male ++ "%")
                    (Some maleCount) "" Cyan;
                  StatCard "Contact Rate" (rate ++ "%")
                    (Some "Reachable patients") "" Green ];
              gender_chart := genderChart data;
              age_chart := ageChart data;
              prescriber_chart := prescriberChart data;
              contact_chart := contactChart data;
              insight_cards :=
                [ InsightCard "" "Aging Population" aging
                    (toLocaleString (over60 data)) "patients 60+";
                  InsightCard "" "Primary Surgery"
                    "Rother House handles 71% of all patients, making it the primary healthcare provider in this dataset."
                    "71%" "at Rother House";
                  InsightCard "" "Contact Gap" gap unreachable "unreachable" ];
              ethnicity_chart := ethnicityChart data;
              footer :=
                Element "p" "mt-4 text-white/30 text-sm"
                  [ Text "Data processed from ";
                    Text (toLocaleString data.(totalPatients));
                    Text " patient records" ] |})
  end.

End Render.

(** Every record of the chart holds a number under the chart's [dataKey]. *)
Definition plottable (c : chart) : Prop :=
  Forall (fun r => exists x : number, Get r c.(chart_dataKey) = VNumber x)
         c.(chart_data).

(** The chart has one cell per record, keyed [cell-i] and filled with the
    colour of the record, which is a colour of the palette. *)
Definition coloured (c : chart) : Prop :=
  List.length c.(chart_cells) = List.length c.(chart_data) /\
  forall (i : nat) (r : object),
    nth_error c.(chart_data) i = Some r ->
    exists fill : string,
      In fill CHART_COLORS /\
      Get r "fill" = VString fill /\
      nth_error c.(chart_cells) i
      = Some ("cell-" ++ decimal (Z.of_nat i), VString fill).

End View.

(** ** Reading a display back *)

Module Numeral.

Local Open Scope Z_scope.

Definition digit_value (c : ascii) : option Z :=
  let n := Z.of_nat (nat_of_ascii c) in
  if (48 <=? n) && (n <=? 57) then Some (n - 48) else None.

(** The number written by a string of decimal digits, after [acc]. *)
Fixpoint digits_value (acc : Z) (s : string) : option Z :=
  match s with
  | EmptyString => Some acc
  | String c s' =>
      match digit_value c with
      | Some d => digits_value (10 * acc + d) s'
      | None => None
      end
  end.

(** A leading minus sign, and what follows it. *)
Definition split_sign (str : string) : bool * string :=
  match str with
  | String "-" rest => (true, rest)
  | _ => (false, str)
  end.

(** The integer [n] of an unsigned numeral digits[.]digits that writes
    [n / 10^f] with exactly [f] decimal places after at least one digit. *)
Definition read_unsigned (f : nat) (body : string) : option Z :=
  let k := String.length body in
  match f with
  | O => if (1 <=? k)%nat then digits_value 0 body else None
  | S _ =>
      if (f + 2 <=? k)%nat
         && (take 1 (drop (k - f - 1) body) =? ".")%string
      then
        match digits_value 0 (take (k - f - 1) body),
              digits_value 0 (drop (k - f) body) with
        | Some i, Some r => Some (i * 10 ^ Z.of_nat f + r)
        | _, _ => None
        end
      else None
  end.

(** The sign and the integer of a numeral with [f] decimal places. *)
Definition read_fixed (f : nat) (str : string) : option (bool * Z) :=
  let '(negative, body) := split_sign str in
  option_map (pair negative) (read_unsigned f body).

(** The sign of a double that is neither a zero nor [NaN]. *)
Definition nonzero_sign (x : number) : option bool :=
  match x with
  | S754_infinity s | S754_finite s _ _ => Some s
  | S754_zero _ | S754_nan => None
  end.

Definition is_zero (x : number) : bool :=
  match x with
  | S754_zero _ => true
  | _ => false
  end.

Definition is_infinite (x : number) : bool :=
  match x with
  | S754_infinity _ => true
  | _ => false
  end.

(** What reading the display [str] of the double [x] back gives: nothing for
    a value that is not finite; for a finite one below [10^21], the sign of
    [x] and the integer [n] with [n / 10^f] nearest to its magnitude. *)
Definition reads_back (f : nat) (x : number) (str : string) : Prop :=
  match x with
  | S754_zero _ => read_fixed f str = Some (false, 0)
  | S754_finite s m e =>
      let '(N, D) := ratio m e in
      N < 10 ^ 21 * D ->
      exists n : Z,
        read_fixed f str = Some (s, n) /\
        2 * D * n <= 2 * N * 10 ^ Z.of_nat f + D < 2 * D * (n + 1)
  | _ => read_fixed f str = None
  end.

End Numeral.

Import Numeral.

(** The five percentages of the page: the numerator, the number of decimal
    places and the display of each. *)
Definition percentages (data : DashboardData)
  : list (number * nat * completion string) :=
  [ (ToNumber (lookup data.(genderDistribution) "Female"), 1,
     femalePercent data);
    (ToNumber (lookup data.(genderDistribution) "Male"), 1,
     malePercent data);
    (Number_add (ToNumber (lookup data.(contactAvailability) "homePhone"))
                (ToNumber (lookup data.(contactAvailability) "mobilePhone")),
     1, contactRate data);
    (over60 data, 0, agingPercent data);
    (ToNumber (lookup data.(contactAvailability) "noContact"), 0,
     noContactPercent data) ].

(** ** Properties of the string built-ins *)

Section Strings.

Lemma append_empty_r (s : string) : s ++ "" = s.
Proof. induction s as [|c s IH]; simpl; [reflexivity | now rewrite IH]. Qed.

Lemma append_assoc (a b c : string) : (a ++ b) ++ c = a ++ (b ++ c).
Proof. induction a as [|x a IH]; simpl; [reflexivity | now rewrite IH]. Qed.

Lemma length_append (a b : string) :
  String.length (a ++ b) = String.length a + String.length b.
Proof. induction a as [|x a IH]; simpl; [reflexivity | now rewrite IH]. Qed.

Lemma length_drop (n : nat) (s : string) :
  String.length (drop n s) = String.length s - n.
Proof.
  revert s; induction n as [|n IH]; intros [|c s]; simpl; auto.
Qed.

Lemma drop_append (a b : string) : drop (String.length a) (a ++ b) = b.
Proof. induction a as [|x a IH]; simpl; auto. Qed.

Lemma take_append (a b : string) : take (String.length a) (a ++ b) = a.
Proof. induction a as [|x a IH]; simpl; [now destruct b | now rewrite IH]. Qed.

Lemma prefix_append (p r : string) : prefix p (p ++ r) = true.
Proof.
  induction p as [|c p IH]; simpl; [now destruct r |].
  destruct (ascii_dec c c); [exact IH | congruence].
Qed.

Lemma prefix_elim (p s : string) :
  prefix p s = true -> s = p ++ drop (String.length p) s.
Proof.
  revert s; induction p as [|c p IH]; intros s H; [reflexivity |].
  destruct s as [|b s]; simpl in H; [discriminate |].
  destruct (ascii_dec c b) as [->|]; [| discriminate].
  simpl. f_equal. now apply IH.
Qed.

Lemma prefix_empty_iff (p : string) : prefix p "" = true -> p = "".
Proof. destruct p; simpl; [reflexivity | discriminate]. Qed.

(** [StringIndexOf] finds an occurrence ... *)
Lemma StringIndexOf_Some (s pat : string) (pos : nat) :
  StringIndexOf s pat = Some pos ->
  s = take pos s ++ pat ++ drop (pos + String.length pat) s.
Proof.
  revert pos; induction s as [|c s IH]; intros pos; cbn [StringIndexOf].
  - destruct (prefix pat "") eqn:E; [| discriminate].
    intros [= <-]. apply prefix_empty_iff in E. now subst.
  - destruct (prefix pat (String c s)) eqn:E.
    + intros [= <-]. simpl. now apply prefix_elim.
    + destruct (StringIndexOf s pat) as [n|]; [| discriminate].
      intros [= <-]. simpl. f_equal. now apply IH.
Qed.

(** ... and misses none. *)
Lemma StringIndexOf_None (s pat : string) :
  StringIndexOf s pat = None -> ~ occurs pat s.
Proof.
  induction s as [|c s IH]; cbn [StringIndexOf].
  - destruct (prefix pat "") eqn:E; [discriminate |].
    intros _ (a & b & H). destruct a; [| discriminate].
    simpl in H. destruct pat; [discriminate | discriminate].
  - destruct (prefix pat (String c s)) eqn:E; [discriminate |].
    destruct (StringIndexOf s pat) as [n|]; [discriminate |].
    intros _ (a & b & H). destruct a as [|x a].
    + simpl in H. rewrite H, prefix_append in E. discriminate.
    + simpl in H. injection H as _ H. apply IH; [reflexivity |].
      now exists a, b.
Qed.

Lemma occurs_StringIndexOf (s pat : string) :
  occurs pat s <-> StringIndexOf s pat <> None.
Proof.
  split.
  - intros H E. now apply StringIndexOf_None in E.
  - destruct (StringIndexOf s pat) as [pos|] eqn:E; [| congruence].
    intros _. apply StringIndexOf_Some in E.
    now exists (take pos s), (drop (pos + String.length pat) s).
Qed.

(** Replacing by the empty string removes the first occurrence. *)
Lemma String_replace_remove_first (s pat : string) :
  String_replace s pat "" = remove_first pat s.
Proof.
  unfold String_replace.
  induction s as [|c s IH]; cbn [StringIndexOf remove_first].
  - destruct (prefix pat "") eqn:E; reflexivity.
  - destruct (prefix pat (String c s)) eqn:E; [reflexivity |].
    destruct (StringIndexOf s pat) as [n|]; simpl in *; now rewrite <- IH.
Qed.

Lemma remove_first_absent (s pat : string) :
  ~ occurs pat s -> remove_first pat s = s.
Proof.
  intros H. rewrite <- String_replace_remove_first. unfold String_replace.
  destruct (StringIndexOf s pat) eqn:E; [| reflexivity].
  exfalso. apply H, occurs_StringIndexOf. congruence.
Qed.

Lemma remove_first_prefix (pat rest : string) :
  remove_first pat (pat ++ rest) = rest.
Proof.
  assert (E : forall s, prefix pat s = true ->
                    remove_first pat s = drop (String.length pat) s)
    by (intros [|c s] H; cbn [remove_first]; now rewrite H).
  now rewrite E, drop_append by apply prefix_append.
Qed.

Lemma length_remove_first_le (s pat : string) :
  String.length (remove_first pat s) <= String.length s.
Proof.
  induction s as [|c s IH]; cbn [remove_first].
  - destruct (prefix pat ""); [rewrite length_drop |]; simpl; lia.
  - destruct (prefix pat (String c s)); [| cbn [String.length]; lia].
    rewrite length_drop. lia.
Qed.

Lemma length_remove_first_present (s pat : string) :
  occurs pat s ->
  String.length (remove_first pat s) + String.length pat = String.length s.
Proof.
  intros H. apply occurs_StringIndexOf in H.
  rewrite <- String_replace_remove_first. unfold String_replace.
  destruct (StringIndexOf s pat) as [pos|] eqn:E; [| congruence].
  apply StringIndexOf_Some in E.
  rewrite E at 3. simpl. rewrite !length_append. lia.
Qed.

Lemma occurs_dec (pat s : string) : occurs pat s \/ ~ occurs pat s.
Proof.
  destruct (StringIndexOf s pat) eqn:E.
  - left. apply occurs_StringIndexOf. congruence.
  - right. now apply StringIndexOf_None.
Qed.

(** The first piece of a split at commas. *)
Lemma StringIndexOf_comma (s : string) :
  match StringIndexOf s "," with
  | None => before_comma s = s
  | Some pos => before_comma s = take pos s
  end.
Proof.
  induction s as [|c s IH]; [reflexivity |].
  cbn [StringIndexOf before_comma prefix].
  destruct (ascii_dec "," c) as [<-|N].
  - destruct s; reflexivity.
  - replace (Ascii.eqb c ",") with false
      by (symmetry; apply Ascii.eqb_neq; congruence).
    destruct (StringIndexOf s ","); simpl; now rewrite IH.
Qed.

Lemma String_split_comma_head (s : string) :
  index (String_split s ",") 0 = VString (before_comma s).
Proof.
  unfold String_split. pose proof (StringIndexOf_comma s) as H.
  destruct (String.length s) eqn:L.
  - destruct s; [reflexivity | discriminate].
  - simpl. destruct (StringIndexOf s ","); simpl; now rewrite H.
Qed.

End Strings.

(** ** Properties of the array built-ins and of records *)

Section Arrays.

Context {A B : Type}.

Lemma length_map_from (f : A -> nat -> B) (l : list A) (i : nat) :
  List.length (map_from i f l) = List.length l.
Proof. revert i; induction l as [|a l IH]; intros i; simpl; auto. Qed.

Lemma nth_error_map_from (f : A -> nat -> B) (l : list A) (i k : nat) :
  nth_error (map_from i f l) k =
  option_map (fun a => f a (i + k)) (nth_error l k).
Proof.
  revert i k; induction l as [|a l IH]; intros i [|k]; simpl; auto.
  - now rewrite Nat.add_0_r.
  - rewrite IH. now rewrite Nat.add_succ_r.
Qed.

Lemma Array_slice_0 (n : nat) (l : list A) : Array_slice 0 n l = firstn n l.
Proof. unfold Array_slice. now rewrite Nat.sub_0_r. Qed.

Lemma nth_error_Array_map_slice
      (f : A -> nat -> B) (l : list A) (n i : nat) (a : A) :
  i < n -> nth_error l i = Some a ->
  nth_error (Array_map f (Array_slice 0 n l)) i = Some (f a i).
Proof.
  intros Hi Ha. unfold Array_map.
  rewrite nth_error_map_from, Array_slice_0, nth_error_firstn.
  apply Nat.ltb_lt in Hi. now rewrite Hi, Ha.
Qed.

Lemma length_Array_map_slice (f : A -> nat -> B) (l : list A) (n : nat) :
  List.length (Array_map f (Array_slice 0 n l)) = Nat.min n (List.length l).
Proof.
  unfold Array_map. now rewrite length_map_from, Array_slice_0, length_firstn.
Qed.

End Arrays.

Section Records.

Context {A : Type}.

Lemma assoc_In (o : list (string * A)) (k : string) (v : A) :
  assoc o k = Some v -> In (k, v) o.
Proof.
  induction o as [|[k' v'] o IH]; simpl; [discriminate |].
  destruct (String.eqb_spec k' k) as [->|]; [intros [= ->]; now left | auto].
Qed.

Lemma In_assoc (o : list (string * A)) (k : string) (v : A) :
  NoDup (keys o) -> In (k, v) o -> assoc o k = Some v.
Proof.
  induction o as [|[k' v'] o IH]; simpl; [contradiction |].
  intros ND [[= -> ->]|H].
  - now rewrite String.eqb_refl.
  - inversion ND as [|? ? Hk ND']; subst.
    destruct (String.eqb_spec k' k) as [->|]; [| auto].
    exfalso. apply Hk. unfold keys. now apply (in_map fst _ (k, v)).
Qed.

(** A property read does not depend on the order of the properties. *)
Lemma assoc_Permutation (o o' : list (string * A)) (k : string) :
  NoDup (keys o) -> Permutation o o' -> assoc o k = assoc o' k.
Proof.
  intros ND P.
  assert (ND' : NoDup (keys o'))
    by (eapply Permutation_NoDup; [apply Permutation_map, P | exact ND]).
  destruct (assoc o k) as [v|] eqn:E.
  - symmetry. apply In_assoc; [exact ND' |].
    eapply Permutation_in; [exact P | now apply assoc_In].
  - destruct (assoc o' k) as [v|] eqn:E'; [| reflexivity].
    apply assoc_In in E'. apply Permutation_sym in P.
    apply (Permutation_in _ P), (In_assoc _ _ _ ND) in E'. congruence.
Qed.

End Records.

Lemma palette_small (i : nat) :
  i < 10 ->
  exists fill : string,
    nth_error CHART_COLORS i = Some fill /\ palette i = VString fill.
Proof.
  intros H. unfold palette, index.
  replace (List.length CHART_COLORS) with 10 by reflexivity.
  rewrite Nat.mod_small by exact H.
  destruct (nth_error CHART_COLORS i) as [c|] eqn:E; [now exists c |].
  apply nth_error_None in E. simpl in E. lia.
Qed.

(** ** The chart transformers *)

Section Transformers.

Variable data : DashboardData.

(** C1, as the code has it. The prescriber sequence has
    [min 5 (size prescriberStats)] records, the first five entries of
    [prescriberStats] in mapping order; the record at position [i] is
    [{ name, patients, fill }], where [name] is the key up to its first
    comma (the whole key without one), [patients] is the entry's count and
    [fill] is the palette colour at [i]. The count is under [patients]:
    the record has no [value] property. *)
Theorem prescriberData_records :
  List.length (prescriberData data)
  = Nat.min 5 (List.length data.(prescriberStats)) /\
  forall (i : nat) (key : string) (count : number),
    i < 5 ->
    nth_error data.(prescriberStats) i = Some (key, count) ->
    exists fill : string,
      nth_error CHART_COLORS i = Some fill /\
      nth_error (prescriberData data) i
      = Some [ ("name", VString (before_comma key));
               ("patients", VNumber count);
               ("fill", VString fill) ].
Proof.
  split; [apply length_Array_map_slice |].
  intros i key count Hi E.
  destruct (palette_small i) as (fill & Hc & Hp); [lia |].
  exists fill; split; [exact Hc |].
  unfold prescriberData, Object_entries.
  rewrite (nth_error_Array_map_slice _ _ 5 i (key, count) Hi E).
  now rewrite String_split_comma_head, Hp.
Qed.

(** C2, as the code has it. The ethnicity sequence has
    [min 6 (size ethnicityDistribution)] records, the first six entries in
    mapping order, unsorted; the label is the key with the first occurrence
    of ["White - "] removed wherever it is, and then the first occurrence of
    ["Asian or Asian British - "] removed from what remains. A key that
    contains neither literal is unchanged, and a key that is one of the
    literals followed by a remainder free of both is cut down to that
    remainder. *)
Theorem ethnicityData_records :
  List.length (ethnicityData data)
  = Nat.min 6 (List.length data.(ethnicityDistribution)) /\
  (forall (i : nat) (key : string) (count : number),
     i < 6 ->
     nth_error data.(ethnicityDistribution) i = Some (key, count) ->
     exists fill : string,
       nth_error CHART_COLORS i = Some fill /\
       nth_error (ethnicityData data) i
       = Some [ ("name",
                 VString (remove_first "Asian or Asian British - "
                            (remove_first "White - " key)));
                ("value", VNumber count);
                ("fill", VString fill) ]) /\
  (forall key : string,
     ~ occurs "White - " key ->
     ~ occurs "Asian or Asian British - " key ->
     cleanLabel key = key) /\
  (forall rest : string,
     ~ occurs "White - " rest ->
     ~ occurs "Asian or Asian British - " rest ->
     cleanLabel ("White - " ++ rest) = rest /\
     cleanLabel ("Asian or Asian British - " ++ rest) = rest).
Proof.
  split; [apply length_Array_map_slice |].
  split; [| split].
  - intros i key count Hi E.
    destruct (palette_small i) as (fill & Hc & Hp); [lia |].
    exists fill; split; [exact Hc |].
    unfold ethnicityData, Object_entries.
    rewrite (nth_error_Array_map_slice _ _ 6 i (key, count) Hi E).
    unfold cleanLabel. now rewrite !String_replace_remove_first, Hp.
  - intros key HW HA. unfold cleanLabel.
    rewrite !String_replace_remove_first.
    now rewrite (remove_first_absent key), remove_first_absent.
  - intros rest HW HA. unfold cleanLabel.
    rewrite !String_replace_remove_first. split.
    + now rewrite remove_first_prefix, remove_first_absent.
    + replace (remove_first "White - " ("Asian or Asian British - " ++ rest))
        with ("Asian or Asian British - " ++ rest).
      * apply remove_first_prefix.
      * cbn. now rewrite remove_first_absent.
Qed.

(** C4. The contact sequence is three records, Mobile Phone, Home Phone and
    No Contact in that order, coloured cyan, purple and pink, whose values
    are the [mobilePhone], [homePhone] and [noContact] properties of
    [contactAvailability]; listing the properties of [contactAvailability]
    in another order changes nothing. *)
Theorem contactData_fixed :
  map (fun r => Get r "name") (contactData data)
  = [ VString "Mobile Phone"; VString "Home Phone"; VString "No Contact" ] /\
  map (fun r => Get r "fill") (contactData data)
  = [ VString COLORS.cyan; VString COLORS.purple; VString COLORS.pink ] /\
  map (fun r => Get r "value") (contactData data)
  = [ to_value (lookup data.(contactAvailability) "mobilePhone");
      to_value (lookup data.(contactAvailability) "homePhone");
      to_value (lookup data.(contactAvailability) "noContact") ] /\
  forall data' : DashboardData,
    NoDup (keys data.(contactAvailability)) ->
    Permutation data.(contactAvailability) data'.(contactAvailability) ->
    contactData data' = contactData data.
Proof.
  repeat split.
  intros data' ND P. unfold contactData, lookup.
  now rewrite !(assoc_Permutation _ _ _ ND P).
Qed.

(** C5. The gender sequence has one record per entry of
    [genderDistribution], in mapping order; the record of an entry carries
    its label and its count, and its colour depends on the label alone:
    pink for ["Female"], cyan for ["Male"], purple for any other label. *)
Theorem genderData_records :
  List.length (genderData data) = List.length data.(genderDistribution) /\
  forall (i : nat) (key : string) (count : number),
    nth_error data.(genderDistribution) i = Some (key, count) ->
    exists fill : string,
      nth_error (genderData data) i
      = Some [ ("name", VString key);
               ("value", VNumber count);
               ("fill", VString fill) ] /\
      (key = "Female" -> fill = COLORS.pink) /\
      (key = "Male" -> fill = COLORS.cyan) /\
      (key <> "Female" -> key <> "Male" -> fill = COLORS.purple).
Proof.
  split; [apply length_map_from |].
  intros i key count E.
  unfold genderData, Array_map, Object_entries.
  rewrite nth_error_map_from, E. cbn [option_map].
  eexists; split; [reflexivity |].
  destruct (String.eqb_spec key "Female") as [->|NF].
  - repeat split; congruence.
  - destruct (String.eqb_spec key "Male") as [->|NM];
      repeat split; congruence.
Qed.

(** C6. The values of the gender records add up to the same total as the
    counts of [genderDistribution]: no entry is dropped or altered. *)
Theorem genderData_total :
  total (map (fun r => count_of (Get r "value")) (genderData data))
  = total (map snd data.(genderDistribution)).
Proof.
  unfold genderData, Array_map, Object_entries.
  f_equal. generalize 0.
  induction (genderDistribution data) as [|[key count] l IH]; intros i.
  - reflexivity.
  - cbn [map_from map]. now rewrite IH.
Qed.

End Transformers.

(** ** Label cleanup applied twice *)

(** C3, as the code has it. Cleaning a label twice gives the same string as
    cleaning it once exactly when the label cleaned once contains neither
    ["White - "] nor ["Asian or Asian British - "]; on any other label the
    second cleanup removes a further occurrence. *)
Theorem cleanLabel_twice (label : string) :
  cleanLabel (cleanLabel label) = cleanLabel label <->
  ~ occurs "White - " (cleanLabel label) /\
  ~ occurs "Asian or Asian British - " (cleanLabel label).
Proof.
  set (c := cleanLabel label). unfold cleanLabel at 1.
  rewrite !String_replace_remove_first. split.
  - intros E.
    pose proof (length_remove_first_le (remove_first "White - " c)
                  "Asian or Asian British - ") as L2.
    rewrite E in L2.
    destruct (occurs_dec "White - " c) as [HW|HW].
    + apply length_remove_first_present in HW. simpl in HW. lia.
    + split; [exact HW |]. intros HA.
      rewrite (remove_first_absent c) in E by exact HW.
      apply length_remove_first_present in HA. rewrite E in HA.
      simpl in HA. lia.
  - intros [HW HA].
    now rewrite (remove_first_absent c), remove_first_absent.
Qed.

(** ** The claims of the specification that the code does not meet *)

(** C1 as stated fails: the specification gives every record the shape
    [{ name, value, fill }], but a prescriber record keeps its count under
    [patients] and reading [value] from it gives [undefined]. *)
Lemma prescriberData_value_counterexample :
  exists r : object,
    nth_error (prescriberData Examples.thousand) 0 = Some r /\
    Get r "patients" = VNumber (of_Z 5) /\
    Get r "value" = VUndefined /\
    ~ ChartRecord r.
Proof.
  eexists; split; [reflexivity |].
  split; [reflexivity |]. split; [reflexivity |].
  intros (name & value & fill & _ & H & _). discriminate H.
Qed.

(** C2 as stated fails: ["Other White - Irish"] starts with neither
    literal, so stripping prefixes leaves it unchanged, but the ethnicity
    record is labelled ["Other Irish"]. *)
Lemma ethnicityData_prefix_counterexample :
  prefix "White - " "Other White - Irish" = false /\
  prefix "Asian or Asian British - " "Other White - Irish" = false /\
  strip_prefixes "Other White - Irish" = "Other White - Irish" /\
  exists r : object,
    nth_error
      (ethnicityData
         (Examples.set_ethnicityDistribution
            (Examples.counts [("Other White - Irish", 3%Z)])
            Examples.thousand)) 0 = Some r /\
    Get r "name" = VString "Other Irish" /\
    Get r "name" <> VString (strip_prefixes "Other White - Irish").
Proof.
  repeat (split; [reflexivity |]).
  eexists; split; [reflexivity |]. split; [reflexivity |].
  vm_compute. discriminate.
Qed.

(** C3 as stated fails: cleaning ["White - White - Irish"] once leaves
    ["White - Irish"], cleaning it twice leaves ["Irish"]. *)
Lemma cleanLabel_twice_counterexample :
  cleanLabel "White - White - Irish" = "White - Irish" /\
  cleanLabel (cleanLabel "White - White - Irish") = "Irish" /\
  cleanLabel (cleanLabel "White - White - Irish")
  <> cleanLabel "White - White - Irish".
Proof.
  split; [reflexivity |]. split; [reflexivity |].
  vm_compute. discriminate.
Qed.

(** ** The theorems at concrete snapshots *)

Lemma prescriberData_records_witness :
  0 < 5 /\
  nth_error Examples.thousand.(prescriberStats) 0
  = Some ("Smith, J", of_Z 5) /\
  exists fill : string,
    nth_error CHART_COLORS 0 = Some fill /\
    nth_error (prescriberData Examples.thousand) 0
    = Some [ ("name", VString (before_comma "Smith, J"));
             ("patients", VNumber (of_Z 5));
             ("fill", VString fill) ].
Proof.
  split; [lia |]. split; [reflexivity |].
  apply (proj2 (prescriberData_records Examples.thousand) 0 "Smith, J" (of_Z 5));
    [lia | reflexivity].
Defined.

Lemma ethnicityData_records_witness :
  0 < 6 /\
  nth_error Examples.thousand.(ethnicityDistribution) 0
  = Some ("White - British", of_Z 700) /\
  exists fill : string,
    nth_error CHART_COLORS 0 = Some fill /\
    nth_error (ethnicityData Examples.thousand) 0
    = Some [ ("name",
              VString (remove_first "Asian or Asian British - "
                         (remove_first "White - " "White - British")));
             ("value", VNumber (of_Z 700));
             ("fill", VString fill) ].
Proof.
  split; [lia |]. split; [reflexivity |].
  apply (proj1 (proj2 (ethnicityData_records Examples.thousand))
           0 "White - British" (of_Z 700)); [lia | reflexivity].
Defined.

Lemma cleanLabel_twice_witness :
  cleanLabel (cleanLabel "White - British") = cleanLabel "White - British".
Proof.
  apply (proj2 (cleanLabel_twice "White - British")).
  split; apply StringIndexOf_None; reflexivity.
Defined.

Lemma contactData_fixed_witness :
  contactData
    (Examples.set_contactAvailability
       (Examples.counts [ ("noContact", 250%Z); ("mobilePhone", 600%Z);
                          ("homePhone", 150%Z) ])
       Examples.thousand)
  = contactData Examples.thousand.
Proof.
  apply (proj2 (proj2 (proj2 (contactData_fixed Examples.thousand)))).
  - repeat constructor; simpl; intuition discriminate.
  - simpl. set (m := ("mobilePhone", of_Z 600)).
    set (h := ("homePhone", of_Z 150)). set (n := ("noContact", of_Z 250)).
    apply (perm_trans (l' := [m; n; h])).
    + apply perm_skip, perm_swap.
    + apply perm_swap.
Defined.

Lemma genderData_records_witness :
  nth_error Examples.thousand.(genderDistribution) 0
  = Some ("Female", of_Z 520) /\
  exists fill : string,
    nth_error (genderData Examples.thousand) 0
    = Some [ ("name", VString "Female");
             ("value", VNumber (of_Z 520));
             ("fill", VString fill) ] /\
    ("Female" = "Female" -> fill = COLORS.pink) /\
    ("Female" = "Male" -> fill = COLORS.cyan) /\
    ("Female" <> "Female" -> "Female" <> "Male" -> fill = COLORS.purple).
Proof.
  split; [reflexivity |].
  apply (proj2 (genderData_records Examples.thousand) 0 "Female" (of_Z 520)).
  reflexivity.
Defined.

(** ** Properties of number formatting *)

Section Formatting.

Local Open Scope Z_scope.

Lemma digits_from_acc (fuel : nat) (n : Z) (acc : string) :
  digits_from fuel n acc = (digits_from fuel n "" ++ acc)%string.
Proof.
  revert n acc; induction fuel as [|fuel IH]; intros n acc; simpl.
  - reflexivity.
  - destruct (n <? 10); [reflexivity |].
    rewrite IH, (IH _ (String _ "")), append_assoc. reflexivity.
Qed.

(** Fuel beyond the number of digits changes nothing. *)
Lemma digits_from_fuel (f1 f2 : nat) (n : Z) (acc : string) :
  0 <= n < 10 ^ (Z.of_nat f1 + 1) ->
  n < 10 ^ (Z.of_nat f2 + 1) ->
  digits_from f1 n acc = digits_from f2 n acc.
Proof.
  revert f2 n acc; induction f1 as [|f1 IH]; intros f2 n acc H1 H2.
  - change (10 ^ (Z.of_nat 0 + 1)) with 10 in H1.
    destruct f2; simpl; [reflexivity |].
    destruct (Z.ltb_spec n 10); [reflexivity | lia].
  - destruct f2 as [|f2].
    + change (10 ^ (Z.of_nat 0 + 1)) with 10 in H2. simpl.
      destruct (Z.ltb_spec n 10); [reflexivity | lia].
    + simpl. destruct (Z.ltb_spec n 10); [reflexivity |].
      assert (E : forall k : nat, 10 ^ (Z.of_nat (S k) + 1)
                                  = 10 * 10 ^ (Z.of_nat k + 1))
        by (intros k; rewrite <- Z.pow_succ_r by lia; f_equal; lia).
      rewrite E in H1, H2.
      apply IH.
      * split; [apply Z.div_pos; lia |].
        apply Z.div_lt_upper_bound; lia.
      * apply Z.div_lt_upper_bound; lia.
Qed.

Lemma decimal_fuel (n : Z) :
  0 <= n -> n < 10 ^ (Z.of_nat (Z.to_nat (Z.log2 n)) + 1).
Proof.
  intros H. rewrite Z2Nat.id by apply Z.log2_nonneg.
  destruct (Z.eq_dec n 0) as [->|]; [reflexivity |].
  pose proof (Z.log2_spec n ltac:(lia)) as [_ L].
  eapply Z.lt_le_trans; [exact L |].
  apply Z.pow_le_mono_l. lia.
Qed.

Lemma decimal_small (n : Z) :
  0 <= n < 10 -> decimal n = String (digit n) "".
Proof.
  intros H. unfold decimal.
  rewrite (digits_from_fuel _ 0);
    [| split; [lia | apply decimal_fuel; lia]
     | change (10 ^ (Z.of_nat 0 + 1)) with 10; lia].
  simpl. now rewrite Z.mod_small.
Qed.

Lemma decimal_step (n : Z) :
  10 <= n ->
  decimal n = (decimal (n / 10) ++ String (digit (n mod 10)) "")%string.
Proof.
  intros H. unfold decimal.
  pose proof (decimal_fuel n ltac:(lia)) as F.
  pose proof (decimal_fuel (n / 10) ltac:(apply Z.div_pos; lia)) as F'.
  set (f := Z.to_nat (Z.log2 n)) in *.
  set (f' := Z.to_nat (Z.log2 (n / 10))) in *.
  rewrite (digits_from_fuel f (S f')).
  - simpl. destruct (Z.ltb_spec n 10); [lia |]. apply digits_from_acc.
  - lia.
  - replace (Z.of_nat (S f') + 1) with (Z.succ (Z.of_nat f' + 1)) by lia.
    rewrite Z.pow_succ_r by lia.
    pose proof (Z.mul_succ_div_gt n 10 ltac:(lia)). lia.
Qed.

Lemma length_decimal_pos (n : Z) : (1 <= String.length (decimal n))%nat.
Proof.
  unfold decimal. destruct (Z.to_nat (Z.log2 n)); simpl.
  - lia.
  - destruct (n <? 10); simpl; [lia |].
    rewrite digits_from_acc, length_append. simpl. lia.
Qed.

(** The layout of [toFixed] with one fraction digit. *)
Lemma fixed_notation_1 (n : Z) : 0 <= n -> fixed_notation n 1 = numeral n 1.
Proof.
  intros H. unfold fixed_notation, numeral.
  destruct (Z.lt_ge_cases n 10) as [S|L].
  - rewrite (decimal_small n) by lia. simpl.
    rewrite Z.div_small, Z.mod_small by lia.
    rewrite (decimal_small 0), (decimal_small n) by lia. reflexivity.
  - rewrite (decimal_step n L).
    set (hd := decimal (n / 10)).
    pose proof (length_decimal_pos (n / 10)) as P. fold hd in P.
    rewrite length_append. cbn [String.length].
    destruct (Nat.leb_spec (String.length hd + 1) 1) as [C|_]; [lia |].
    replace (String.length hd + 1 - 1)%nat with (String.length hd) by lia.
    rewrite take_append, drop_append.
    now rewrite (decimal_small (n mod 10))
      by (apply Z.mod_pos_bound; lia).
Qed.

Lemma fixed_notation_upto_1 (n : Z) (f : nat) :
  0 <= n -> (f <= 1)%nat -> fixed_notation n f = numeral n f.
Proof.
  intros H F. destruct f as [|[|f]]; [reflexivity | | lia].
  now apply fixed_notation_1.
Qed.

Lemma ratio_pos (m : positive) (e N D : Z) :
  ratio m e = (N, D) -> 0 < N /\ 0 < D.
Proof.
  assert (P : forall k : Z, 0 <= k -> 0 < 2 ^ k)
    by (intros k K; apply Z.pow_pos_nonneg; lia).
  unfold ratio.
  destruct e as [|p|p]; intros E; apply pair_equal_spec in E;
    destruct E as [<- <-]; split; try lia;
    first [apply Z.mul_pos_pos; [lia | apply P; lia] | apply P; lia].
Qed.

(** [nearest] is the rounding that [toFixed] asks for. *)
Lemma nearest_spec (N D : Z) (f : nat) :
  0 < N -> 0 < D ->
  0 <= nearest N D f /\
  2 * D * nearest N D f <= 2 * N * 10 ^ Z.of_nat f + D
                        < 2 * D * (nearest N D f + 1).
Proof.
  intros HN HD. unfold nearest.
  assert (0 < 10 ^ Z.of_nat f) by (apply Z.pow_pos_nonneg; lia).
  set (a := 2 * N * 10 ^ Z.of_nat f + D).
  assert (0 <= a) by (unfold a; nia).
  split; [apply Z.div_pos; lia |].
  pose proof (Z.mul_div_le a (2 * D) ltac:(lia)).
  pose proof (Z.mul_succ_div_gt a (2 * D) ltac:(lia)).
  lia.
Qed.

(** Below [10^21], [toFixed] with at most one fraction digit displays its
    argument rounded to that many places. *)
Lemma Number_toFixed_rounded (x : number) (f : nat) :
  (f <= 1)%nat -> rounded_display f x (Number_toFixed x (Z.of_nat f)).
Proof.
  intros F. split; [reflexivity |].
  unfold Number_toFixed.
  destruct (Z.ltb_spec (Z.of_nat f) 0) as [|_]; [lia |].
  destruct (Z.ltb_spec 100 (Z.of_nat f)) as [|_]; [lia |].
  cbn [orb]. rewrite Nat2Z.id.
  destruct x as [s| s | |s m e]; cbn [magnitude_below rounded_to];
    try discriminate.
  - intros _. eexists; split; [reflexivity |].
    now apply fixed_notation_upto_1.
  - destruct (ratio m e) as [N D] eqn:R.
    destruct (ratio_pos _ _ _ _ R) as [HN HD].
    destruct (nearest_spec N D f HN HD) as [P Q].
    intros B. apply Z.ltb_lt in B.
    destruct (Z.leb_spec (10 ^ 21 * D) N) as [|_]; [lia |].
    eexists; split; [reflexivity |].
    exists (nearest N D f). split; [exact Q |].
    now rewrite fixed_notation_upto_1.
Qed.

End Formatting.

(** ** The derived percentages *)

Section Percentages.

Variable data : DashboardData.


Lemma Number_add_NaN_r (x : number) : Number_add x NaN = NaN.
Proof. now destruct x. Qed.

Lemma percentage_NaN : percentage NaN data = NaN.
Proof. reflexivity. Qed.

Lemma divide_by_zero (x : number) (s : bool) :
  is_finite (Number_divide x (S754_zero s)) = false.
Proof. now destruct x. Qed.

Lemma times_100_not_finite (y : number) :
  is_finite y = false -> is_finite (Number_multiply y (of_Z 100)) = false.
Proof. now destruct y. Qed.

Lemma Number_toFixed_not_finite (x : number) (f : Z) :
  (f = 0 \/ f = 1)%Z ->
  is_finite x = false ->
  exists str : string, Number_toFixed x f = Normal str /\ non_numeric str.
Proof.
  unfold non_numeric.
  intros [-> | ->]; destruct x as [|[]| |]; try discriminate; intros _;
    eexists; (split; [reflexivity |]); auto.
Qed.

(** C7. With [totalPatients > 0] and the keys [Female] and [Male] present,
    [femalePercent] displays the double [Female / totalPatients * 100]
    rounded to one decimal place, [malePercent] does the same for [Male], and
    [contactRate] displays [(homePhone + mobilePhone) / totalPatients * 100]
    rounded to one decimal place; the quotient, the product and the sum are
    those of JavaScript numbers. On the worked example (1000 patients, 520
    female and 480 male, 600 mobile and 150 home phones) the displays are
    ["52.0"], ["48.0"] and ["75.0"]. *)
Theorem percentages_rounded (female male : number) :
  Number_lessThan (of_Z 0) data.(totalPatients) = true ->
  lookup data.(genderDistribution) "Female" = Some female ->
  lookup data.(genderDistribution) "Male" = Some male ->
  rounded_display 1
    (Number_multiply (Number_divide female data.(totalPatients)) (of_Z 100))
    (femalePercent data) /\
  rounded_display 1
    (Number_multiply (Number_divide male data.(totalPatients)) (of_Z 100))
    (malePercent data) /\
  rounded_display 1
    (Number_multiply
       (Number_divide
          (Number_add
             (ToNumber (lookup data.(contactAvailability) "homePhone"))
             (ToNumber (lookup data.(contactAvailability) "mobilePhone")))
          data.(totalPatients))
       (of_Z 100))
    (contactRate data) /\
  femalePercent Examples.thousand = Normal "52.0" /\
  malePercent Examples.thousand = Normal "48.0" /\
  contactRate Examples.thousand = Normal "75.0".
Proof.
  intros _ F M. unfold femalePercent, malePercent, contactRate.
  rewrite F, M. cbn [ToNumber]. unfold percentage.
  do 3 (split; [apply (Number_toFixed_rounded _ 1); lia |]).
  repeat split; vm_compute; reflexivity.
Qed.

(** C8. With the keys ['60-74'], ['75-99'] and ['100+'] present, the
    aging-population insight displays the double
    [(ageGroups['60-74'] + ageGroups['75-99'] + ageGroups['100+'])
     / totalPatients * 100] rounded to zero decimal places; on the worked
    example (200, 100 and 10 of 1000 patients) that is ["31"]. When one of the
    three keys is absent the display is ["NaN"]. *)
Theorem agingPercent_display :
  (forall a b c : number,
     lookup data.(ageGroups) "60-74" = Some a ->
     lookup data.(ageGroups) "75-99" = Some b ->
     lookup data.(ageGroups) "100+" = Some c ->
     rounded_display 0
       (Number_multiply
          (Number_divide (Number_add (Number_add a b) c) data.(totalPatients))
          (of_Z 100))
       (agingPercent data)) /\
  (lookup data.(ageGroups) "60-74" = None \/
   lookup data.(ageGroups) "75-99" = None \/
   lookup data.(ageGroups) "100+" = None ->
   agingPercent data = Normal "NaN" /\
   agingDescription data
   = Normal "NaN% of patients are over 60 years old, indicating significant elderly care needs.") /\
  agingPercent Examples.thousand = Normal "31".
Proof.
  split; [| split].
  - intros a b c A B C. unfold agingPercent, over60.
    rewrite A, B, C. cbn [ToNumber]. unfold percentage.
    apply (Number_toFixed_rounded _ 0). lia.
  - intros H.
    assert (E : over60 data = NaN).
    { unfold over60. destruct H as [-> | [-> | ->]]; cbn [ToNumber].
      - reflexivity.
      - now rewrite Number_add_NaN_r.
      - now rewrite Number_add_NaN_r. }
    unfold agingDescription, agingPercent. rewrite E, percentage_NaN.
    split; reflexivity.
  - vm_compute. reflexivity.
Qed.

(** C9. With [totalPatients] equal to zero every percentage is a double
    that is not finite, whatever its numerator; the five displays are
    ["NaN"], ["Infinity"] or ["-Infinity"], and deriving the chart sequences
    and the percentages completes normally. *)
Theorem zero_totalPatients (s : bool) :
  data.(totalPatients) = S754_zero s ->
  (forall numerator : number,
     is_finite (percentage numerator data) = false) /\
  (exists str, femalePercent data = Normal str /\ non_numeric str) /\
  (exists str, malePercent data = Normal str /\ non_numeric str) /\
  (exists str, contactRate data = Normal str /\ non_numeric str) /\
  (exists str, agingPercent data = Normal str /\ non_numeric str) /\
  (exists str, noContactPercent data = Normal str /\ non_numeric str) /\
  exists derived : Derived, Dashboard_derived data = Normal derived.
Proof.
  intros T.
  assert (P : forall numerator, is_finite (percentage numerator data) = false).
  { intros x. unfold percentage. rewrite T.
    apply times_100_not_finite, divide_by_zero. }
  assert (Q : forall numerator f, (f = 0 \/ f = 1)%Z ->
              exists str, Number_toFixed (percentage numerator data) f
                          = Normal str /\ non_numeric str)
    by (intros x f F; apply Number_toFixed_not_finite; auto).
  split; [exact P |].
  unfold Dashboard_derived, agingDescription, contactGapDescription,
    femalePercent, malePercent, contactRate, agingPercent, noContactPercent.
  repeat (split; [apply Q; auto |]).
  edestruct (Q (ToNumber (lookup (genderDistribution data) "Female")) 1%Z)
    as (s1 & -> & _); [auto |].
  edestruct (Q (ToNumber (lookup (genderDistribution data) "Male")) 1%Z)
    as (s2 & -> & _); [auto |].
  edestruct (Q (Number_add
                  (ToNumber (lookup (contactAvailability data) "homePhone"))
                  (ToNumber (lookup (contactAvailability data) "mobilePhone")))
               1%Z) as (s3 & -> & _); [auto |].
  edestruct (Q (over60 data) 0%Z) as (s4 & -> & _); [auto |].
  edestruct (Q (ToNumber (lookup (contactAvailability data) "noContact")) 0%Z)
    as (s5 & -> & _); [auto |].
  cbn [bind]. eexists; reflexivity.
Qed.

End Percentages.

(** C10. Two snapshots that differ at most in [surgeryStats] give the same
    five chart sequences, the same percentages and the same computed insight
    texts. *)
Theorem surgeryStats_unused (d1 d2 : DashboardData) :
  d1.(totalPatients) = d2.(totalPatients) ->
  d1.(genderDistribution) = d2.(genderDistribution) ->
  d1.(ethnicityDistribution) = d2.(ethnicityDistribution) ->
  d1.(ageGroups) = d2.(ageGroups) ->
  d1.(prescriberStats) = d2.(prescriberStats) ->
  d1.(contactAvailability) = d2.(contactAvailability) ->
  genderData d1 = genderData d2 /\
  ageData d1 = ageData d2 /\
  ethnicityData d1 = ethnicityData d2 /\
  prescriberData d1 = prescriberData d2 /\
  contactData d1 = contactData d2 /\
  femalePercent d1 = femalePercent d2 /\
  malePercent d1 = malePercent d2 /\
  contactRate d1 = contactRate d2 /\
  agingPercent d1 = agingPercent d2 /\
  noContactPercent d1 = noContactPercent d2 /\
  Dashboard_derived d1 = Dashboard_derived d2.
Proof.
  destruct d1 as [t1 g1 e1 a1 p1 s1 c1], d2 as [t2 g2 e2 a2 p2 s2 c2].
  cbn [totalPatients genderDistribution ethnicityDistribution ageGroups
       prescriberStats contactAvailability].
  intros -> -> -> -> -> ->. repeat split.
Qed.

(** The rounding is that of the double: 23 of 80 patients is the double
    28.749999999999996, displayed as ["28.7"]. *)
Example femalePercent_23_of_80 :
  femalePercent
    {| totalPatients := of_Z 80;
       genderDistribution := Examples.counts [("Female", 23%Z); ("Male", 57%Z)];
       ethnicityDistribution := [];
       ageGroups := [];
       prescriberStats := [];
       surgeryStats := [];
       contactAvailability := [] |}
  = Normal "28.7".
Proof. vm_compute. reflexivity. Qed.

(** Past [10^21] the display turns to exponential notation. *)
Example femalePercent_exponential :
  femalePercent
    {| totalPatients := of_Z 1;
       genderDistribution := Examples.counts [("Female", (10 ^ 21)%Z)];
       ethnicityDistribution := [];
       ageGroups := [];
       prescriberStats := [];
       surgeryStats := [];
       contactAvailability := [] |}
  = Normal "1e+23".
Proof. vm_compute. reflexivity. Qed.

Lemma percentages_rounded_witness :
  rounded_display 1
    (Number_multiply (Number_divide (of_Z 520) (of_Z 1000)) (of_Z 100))
    (femalePercent Examples.thousand) /\
  femalePercent Examples.thousand = Normal "52.0".
Proof.
  pose proof (percentages_rounded Examples.thousand (of_Z 520) (of_Z 480)
                eq_refl eq_refl eq_refl) as H.
  split; [exact (proj1 H) | exact (proj1 (proj2 (proj2 (proj2 H))))].
Defined.

Lemma agingPercent_display_witness :
  agingPercent
    (Examples.set_ageGroups
       (Examples.counts [("60-74", 200%Z); ("75+", 110%Z)])
       Examples.thousand)
  = Normal "NaN".
Proof.
  apply (proj1 (proj2 (agingPercent_display
                         (Examples.set_ageGroups
                            (Examples.counts [("60-74", 200%Z); ("75+", 110%Z)])
                            Examples.thousand)))).
  right; left; reflexivity.
Defined.

Lemma zero_totalPatients_witness :
  exists str : string,
    femalePercent (Examples.set_totalPatients (of_Z 0) Examples.thousand)
    = Normal str /\ non_numeric str.
Proof.
  apply (proj1 (proj2 (zero_totalPatients
                         (Examples.set_totalPatients (of_Z 0) Examples.thousand)
                         false eq_refl))).
Defined.

Lemma surgeryStats_unused_witness :
  Dashboard_derived (Examples.set_surgeryStats [] Examples.thousand)
  = Dashboard_derived Examples.thousand.
Proof.
  apply (surgeryStats_unused
           (Examples.set_surgeryStats [] Examples.thousand) Examples.thousand);
    reflexivity.
Defined.

(** * Further properties of the page *)

(** ** The palette *)

Lemma CHART_COLORS_NoDup : NoDup CHART_COLORS.
Proof.
  unfold CHART_COLORS.
  repeat (constructor; [simpl; intuition discriminate |]). constructor.
Qed.

Lemma palette_any (i : nat) :
  exists fill : string,
    nth_error CHART_COLORS (i mod 10) = Some fill /\ palette i = VString fill.
Proof.
  unfold palette, index.
  replace (List.length CHART_COLORS) with 10 by reflexivity.
  destruct (nth_error CHART_COLORS (i mod 10)) as [c|] eqn:E; [now exists c |].
  apply nth_error_None in E. change (List.length CHART_COLORS) with 10 in E.
  pose proof (Nat.mod_upper_bound i 10). lia.
Qed.

(** X2. Two positions of a chart get the same palette colour exactly when
    they are congruent modulo 10: the palette is reused with period 10 and
    its ten colours are pairwise distinct. *)
Theorem palette_cycle (i j : nat) :
  palette i = palette j <-> i mod 10 = j mod 10.
Proof.
  split.
  - destruct (palette_any i) as (fi & Ei & ->).
    destruct (palette_any j) as (fj & Ej & ->).
    intros [= <-].
    apply (proj1 (NoDup_nth_error CHART_COLORS) CHART_COLORS_NoDup).
    + change (List.length CHART_COLORS) with 10.
      apply Nat.mod_upper_bound. lia.
    + congruence.
  - intros E. unfold palette.
    replace (List.length CHART_COLORS) with 10 by reflexivity. now rewrite E.
Qed.

Lemma palette_distinct (n : nat) :
  n <= 10 -> NoDup (map palette (seq 0 n)).
Proof.
  intros H. apply NoDup_map_NoDup_ForallPairs; [| apply seq_NoDup].
  intros a b Ha Hb E. apply in_seq in Ha, Hb. apply palette_cycle in E.
  rewrite !Nat.mod_small in E by lia. exact E.
Qed.

Section Charts.

Context {A : Type}.

Lemma Forall_map_from {B : Type} (P : B -> Prop) (f : A -> nat -> B)
      (l : list A) (i : nat) :
  (forall a k, P (f a k)) -> Forall P (map_from i f l).
Proof.
  intros H. revert i; induction l as [|a l IH]; intros i; simpl; auto.
Qed.

Lemma fills_map_from (f : A -> nat -> object) (l : list A) (i : nat) :
  (forall a k, Get (f a k) "fill" = palette k) ->
  map (fun r => Get r "fill") (map_from i f l)
  = map palette (seq i (List.length l)).
Proof.
  intros H. revert i; induction l as [|a l IH]; intros i; simpl.
  - reflexivity.
  - now rewrite H, IH.
Qed.

End Charts.

Lemma coloured_cells (data : list object) (key : string) :
  Forall (fun r => exists fill : string,
              In fill CHART_COLORS /\ Get r "fill" = VString fill) data ->
  View.coloured {| View.chart_data := data;
                   View.chart_dataKey := key;
                   View.chart_cells := View.cells data |}.
Proof.
  intros H. split; cbn [View.chart_cells View.chart_data].
  - apply length_map_from.
  - intros i r E.
    destruct (proj1 (Forall_forall _ _) H r (nth_error_In _ _ E))
      as (fill & I & G).
    exists fill. split; [exact I |]. split; [exact G |].
    unfold View.cells, Array_map. now rewrite nth_error_map_from, E, <- G.
Qed.

Lemma palette_colour (i : nat) :
  exists fill : string, In fill CHART_COLORS /\ palette i = VString fill.
Proof.
  destruct (palette_any i) as (fill & E & P).
  exists fill. split; [now apply nth_error_In in E | exact P].
Qed.

Section FurtherTransformers.

Variable data : DashboardData.

(** X1. The age sequence has one record per entry of [ageGroups], in
    mapping order, with the entry's label and count; the colour of the record
    at position [i] is the palette colour at [i mod 10], so it is defined for
    any number of age groups and repeats from the eleventh on. *)
Theorem ageData_records :
  List.length (ageData data) = List.length data.(ageGroups) /\
  forall (i : nat) (key : string) (count : number),
    nth_error data.(ageGroups) i = Some (key, count) ->
    exists fill : string,
      nth_error CHART_COLORS (i mod 10) = Some fill /\
      nth_error (ageData data) i
      = Some [ ("name", VString key);
               ("value", VNumber count);
               ("fill", VString fill) ].
Proof.
  split; [apply length_map_from |].
  intros i key count E.
  destruct (palette_any i) as (fill & Hc & Hp).
  exists fill. split; [exact Hc |].
  unfold ageData, Array_map, Object_entries.
  rewrite nth_error_map_from, E. cbn [option_map Nat.add]. now rewrite Hp.
Qed.

(** X3. No two bars of the ethnicity chart and no two bars of the
    prescriber chart share a colour, nor do two slices of the contact pie;
    the bars of the age chart have pairwise distinct colours as long as
    there are at most ten age groups. *)
Theorem fills_distinct :
  NoDup (map (fun r => Get r "fill") (ethnicityData data)) /\
  NoDup (map (fun r => Get r "fill") (prescriberData data)) /\
  NoDup (map (fun r => Get r "fill") (contactData data)) /\
  (List.length data.(ageGroups) <= 10 ->
   NoDup (map (fun r => Get r "fill") (ageData data))).
Proof.
  split; [| split; [| split]].
  - unfold ethnicityData, Array_map.
    rewrite fills_map_from by (now intros [key count] k).
    apply palette_distinct.
    rewrite Array_slice_0, length_firstn. lia.
  - unfold prescriberData, Array_map.
    rewrite fills_map_from by (now intros [key count] k).
    apply palette_distinct.
    rewrite Array_slice_0, length_firstn. lia.
  - cbn. repeat (constructor; [simpl; intuition discriminate |]). constructor.
  - intros H. unfold ageData, Array_map.
    rewrite fills_map_from by (now intros [key count] k).
    now apply palette_distinct.
Qed.

(** X13. What each chart plots is there: every record of the gender, age,
    ethnicity and prescriber sequences holds a number under the [dataKey] of
    its chart ([patients] for the prescriber bars, [value] for the others),
    and so does every record of the contact sequence when
    [contactAvailability] has its three properties. Every chart has one
    cell per record, keyed [cell-i] and filled with the record's colour,
    which is always one of the ten palette colours. *)
Theorem charts_consistent :
  View.plottable (View.genderChart data) /\
  View.plottable (View.ageChart data) /\
  View.plottable (View.ethnicityChart data) /\
  View.plottable (View.prescriberChart data) /\
  (View.plottable (View.contactChart data) <->
   lookup data.(contactAvailability) "mobilePhone" <> None /\
   lookup data.(contactAvailability) "homePhone" <> None /\
   lookup data.(contactAvailability) "noContact" <> None) /\
  View.coloured (View.genderChart data) /\
  View.coloured (View.ageChart data) /\
  View.coloured (View.ethnicityChart data) /\
  View.coloured (View.prescriberChart data) /\
  View.coloured (View.contactChart data).
Proof.
  assert (P : forall a b c : string, In a CHART_COLORS -> In b CHART_COLORS ->
              In c CHART_COLORS ->
              forall x : string,
                In (if (x =? "Female")%string then a
                    else if (x =? "Male")%string then b else c)
                   CHART_COLORS)
    by (intros a b c ? ? ? x; destruct (x =? "Female")%string;
        [| destruct (x =? "Male")%string]; assumption).
  repeat match goal with |- _ /\ _ => split end.
  - apply Forall_map_from. intros [key count] k. now exists count.
  - apply Forall_map_from. intros [key count] k. now exists count.
  - apply Forall_map_from. intros [key count] k. now exists count.
  - apply Forall_map_from. intros [key count] k. now exists count.
  - unfold View.plottable, View.contactChart, contactData.
    cbn [View.chart_data View.chart_dataKey].
    destruct (lookup (contactAvailability data) "mobilePhone") as [m|];
      destruct (lookup (contactAvailability data) "homePhone") as [h|];
      destruct (lookup (contactAvailability data) "noContact") as [n|];
      (split;
       [ intros F;
         repeat match goal with
                | H : Forall _ (_ :: _) |- _ =>
                    let E := fresh in
                    inversion H as [|? ? E ?]; clear H; subst;
                    try (destruct E as (? & E); discriminate E)
                end;
         repeat split; discriminate
       | intros (Hm & Hh & Hn); try congruence;
         repeat constructor; eexists; reflexivity ]).
  - apply coloured_cells, Forall_map_from. intros [key count] k.
    eexists. split; [| reflexivity].
    apply P; simpl; auto 10.
  - apply coloured_cells, Forall_map_from. intros [key count] k.
    destruct (palette_colour k) as (fill & I & E).
    exists fill. split; [exact I |]. cbn. now rewrite <- E.
  - apply coloured_cells, Forall_map_from. intros [key count] k.
    destruct (palette_colour k) as (fill & I & E).
    exists fill. split; [exact I |]. cbn. now rewrite <- E.
  - apply coloured_cells, Forall_map_from. intros [key count] k.
    destruct (palette_colour k) as (fill & I & E).
    exists fill. split; [exact I |]. cbn. now rewrite <- E.
  - apply coloured_cells. unfold contactData.
    repeat constructor; eexists; (split; [| reflexivity]); simpl; auto 10.
Qed.

End FurtherTransformers.

(** ** Labels *)

Lemma before_comma_cut (s : string) :
  exists rest : string,
    s = before_comma s ++ rest /\ (rest = "" \/ prefix "," rest = true).
Proof.
  induction s as [|c s (rest & E & R)]; [exists ""; auto |].
  cbn [before_comma]. destruct (Ascii.eqb_spec c ",") as [->|N].
  - exists (String "," s). split; [reflexivity | right].
    apply (prefix_append "," s).
  - exists rest. split; [cbn; now rewrite <- E | exact R].
Qed.

Lemma before_comma_free (s : string) : ~ occurs "," (before_comma s).
Proof.
  induction s as [|c s IH]; cbn [before_comma].
  - intros ([|x a] & b & H); discriminate H.
  - destruct (Ascii.eqb_spec c ",") as [->|N].
    + intros ([|x a] & b & H); discriminate H.
    + intros ([|x a] & b & H).
      * cbn in H. congruence.
      * cbn in H. injection H as _ H. apply IH. now exists a, b.
Qed.

(** X4. The label of a prescriber record contains no comma and is the start
    of the entry's key: the key is the label alone, or the label followed by
    a comma and more. A key that starts with a comma, or the empty key, gets
    the empty label. *)
Theorem prescriber_labels (data : DashboardData)
        (i : nat) (key : string) (count : number) :
  i < 5 ->
  nth_error data.(prescriberStats) i = Some (key, count) ->
  exists (r : object) (label rest : string),
    nth_error (prescriberData data) i = Some r /\
    Get r "name" = VString label /\
    key = label ++ rest /\
    (rest = "" \/ prefix "," rest = true) /\
    ~ occurs "," label /\
    (prefix "," key = true \/ key = "" -> label = "").
Proof.
  intros Hi E.
  destruct (before_comma_cut key) as (rest & K & R).
  eexists; exists (before_comma key), rest.
  unfold prescriberData, Object_entries.
  rewrite (nth_error_Array_map_slice _ _ 5 i (key, count) Hi E).
  split; [reflexivity |].
  split; [cbn; apply String_split_comma_head |].
  split; [exact K |]. split; [exact R |].
  split; [apply before_comma_free |].
  intros [P | ->]; [| reflexivity].
  destruct key as [|c key]; [reflexivity |].
  cbn [prefix] in P.
  destruct (ascii_dec "," c) as [<-|]; [reflexivity | discriminate].
Qed.

Lemma prescriber_labels_witness :
  exists (r : object) (label rest : string),
    nth_error (prescriberData Examples.thousand) 0 = Some r /\
    Get r "name" = VString label /\
    "Smith, J" = label ++ rest /\
    (rest = "" \/ prefix "," rest = true) /\
    ~ occurs "," label /\
    (prefix "," "Smith, J" = true \/ "Smith, J" = "" -> label = "").
Proof.
  apply (prescriber_labels Examples.thousand 0 "Smith, J" (of_Z 5));
    [lia | reflexivity].
Defined.

Lemma length_remove_first_ge (s pat : string) :
  String.length s <= String.length (remove_first pat s) + String.length pat.
Proof.
  destruct (occurs_dec pat s) as [H|H].
  - apply length_remove_first_present in H. lia.
  - rewrite remove_first_absent by exact H. lia.
Qed.

(** X5. Label cleanup leaves a label unchanged exactly when the label
    contains neither ["White - "] nor ["Asian or Asian British - "]; it
    never lengthens a label and removes at most 33 characters. *)
Theorem cleanLabel_unchanged (label : string) :
  (cleanLabel label = label <->
   ~ occurs "White - " label /\
   ~ occurs "Asian or Asian British - " label) /\
  String.length (cleanLabel label) <= String.length label
  <= String.length (cleanLabel label) + 33.
Proof.
  unfold cleanLabel. rewrite !String_replace_remove_first.
  pose proof (length_remove_first_le label "White - ") as L1.
  pose proof (length_remove_first_le (remove_first "White - " label)
                "Asian or Asian British - ") as L2.
  pose proof (length_remove_first_ge label "White - ") as G1.
  pose proof (length_remove_first_ge (remove_first "White - " label)
                "Asian or Asian British - ") as G2.
  cbn [String.length] in G1, G2.
  split; [| lia]. split.
  - intros E.
    destruct (occurs_dec "White - " label) as [HW|HW].
    + apply length_remove_first_present in HW. cbn [String.length] in HW.
      rewrite E in L2. lia.
    + split; [exact HW |]. intros HA.
      rewrite (remove_first_absent label) in E by exact HW.
      apply length_remove_first_present in HA.
      rewrite E in HA. cbn [String.length] in HA. lia.
  - intros [HW HA].
    now rewrite (remove_first_absent label), remove_first_absent.
Qed.

(** ** Reading the displays back *)

Section Reading.

Local Open Scope Z_scope.

Lemma digit_cases (d : Z) :
  0 <= d < 10 ->
  d = 0 \/ d = 1 \/ d = 2 \/ d = 3 \/ d = 4 \/ d = 5 \/ d = 6 \/ d = 7 \/
  d = 8 \/ d = 9.
Proof. lia. Qed.

Lemma digit_value_digit (d : Z) :
  0 <= d < 10 -> digit_value (digit d) = Some d.
Proof.
  intros H. apply digit_cases in H.
  repeat (destruct H as [-> | H]; [reflexivity |]). now subst.
Qed.

Lemma split_sign_digit (d : Z) (r : string) :
  0 <= d < 10 ->
  split_sign (String (digit d) r) = (false, String (digit d) r).
Proof.
  intros H. apply digit_cases in H.
  repeat (destruct H as [-> | H]; [reflexivity |]). now subst.
Qed.

Lemma digits_value_append (a b : string) (acc : Z) :
  digits_value acc (a ++ b)
  = match digits_value acc a with
    | Some v => digits_value v b
    | None => None
    end.
Proof.
  revert acc; induction a as [|c a IH]; intros acc; cbn; [reflexivity |].
  destruct (digit_value c); [apply IH | reflexivity].
Qed.

(** The digits of [k] write [k]. *)
Lemma digits_value_decimal (k : Z) :
  0 <= k -> digits_value 0 (decimal k) = Some k.
Proof.
  intros H. pattern k. apply Zlt_0_ind; [clear k H | exact H].
  intros k IH P. destruct (Z.lt_ge_cases k 10) as [S | L].
  - rewrite decimal_small by lia. cbn [digits_value].
    rewrite digit_value_digit by lia. cbn [digits_value]. f_equal; lia.
  - rewrite decimal_step by exact L. rewrite digits_value_append.
    rewrite IH by (split; [apply Z.div_pos; lia
                          | apply Z.div_lt_upper_bound; lia]).
    cbn [digits_value].
    rewrite digit_value_digit by (apply Z.mod_pos_bound; lia).
    cbn [digits_value].
    pose proof (Z.div_mod k 10 ltac:(lia)). f_equal; lia.
Qed.

Lemma decimal_head (k : Z) :
  0 <= k ->
  exists (d : Z) (r : string), 0 <= d < 10 /\ decimal k = String (digit d) r.
Proof.
  intros H. pattern k. apply Zlt_0_ind; [clear k H | exact H].
  intros k IH P. destruct (Z.lt_ge_cases k 10) as [S | L].
  - exists k, "". split; [lia | apply decimal_small; lia].
  - destruct (IH (k / 10)) as (d & r & D & E).
    + split; [apply Z.div_pos; lia | apply Z.div_lt_upper_bound; lia].
    + exists d. eexists. split; [exact D |].
      rewrite decimal_step by exact L. rewrite E. reflexivity.
Qed.

Lemma drop_append_plus (a t : string) (j : nat) :
  drop (String.length a + j) (a ++ t) = drop j t.
Proof. induction a as [|c a IH]; cbn; auto. Qed.

Lemma read_unsigned_numeral (n : Z) (f : nat) :
  0 <= n -> (f <= 1)%nat -> read_unsigned f (numeral n f) = Some n.
Proof.
  intros H F. destruct f as [|[|f]]; [| | lia].
  - unfold read_unsigned, numeral.
    pose proof (length_decimal_pos n) as P.
    destruct (Nat.leb_spec 1 (String.length (decimal n))); [| lia].
    now apply digits_value_decimal.
  - unfold read_unsigned, numeral.
    set (a := decimal (n / 10)).
    pose proof (length_decimal_pos (n / 10)) as P. fold a in P.
    assert (B : decimal (n mod 10) = String (digit (n mod 10)) "")
      by (apply decimal_small, Z.mod_pos_bound; lia).
    rewrite B, !length_append. cbn [String.length].
    destruct (Nat.leb_spec (1 + 2) (String.length a + (1 + 1))); [| lia].
    replace (String.length a + (1 + 1) - 1 - 1)%nat
      with (String.length a) by lia.
    replace (String.length a + (1 + 1) - 1)%nat
      with (String.length a + 1)%nat by lia.
    rewrite drop_append, take_append, drop_append_plus.
    cbn [andb take drop append String.eqb Ascii.eqb Bool.eqb].
    unfold a. rewrite digits_value_decimal by (apply Z.div_pos; lia).
    rewrite <- B, digits_value_decimal by (apply Z.mod_pos_bound; lia).
    f_equal. pose proof (Z.div_mod n 10 ltac:(lia)).
    change (10 ^ Z.of_nat 1) with 10. lia.
Qed.

Lemma read_fixed_numeral (s : bool) (n : Z) (f : nat) :
  0 <= n -> (f <= 1)%nat ->
  read_fixed f ((if s then "-" else "") ++ numeral n f) = Some (s, n).
Proof.
  intros H F. unfold read_fixed. destruct s.
  - cbn [append split_sign]. now rewrite read_unsigned_numeral.
  - cbn [append].
    assert (E : exists d r, 0 <= d < 10 /\ numeral n f = String (digit d) r).
    { destruct f as [|f]; [now apply decimal_head |].
      destruct (decimal_head (n / 10)) as (d & r & D & E);
        [apply Z.div_pos; lia |].
      exists d. eexists. split; [exact D |]. cbn [numeral]. now rewrite E. }
    destruct E as (d & r & D & E).
    rewrite E, split_sign_digit by exact D.
    now rewrite <- E, read_unsigned_numeral.
Qed.

(** What [toFixed] with at most one decimal place writes, reads back. *)
Lemma Number_toFixed_reads_back (x : number) (f : nat) :
  (f <= 1)%nat ->
  exists str : string,
    Number_toFixed x (Z.of_nat f) = Normal str /\ reads_back f x str.
Proof.
  intros F. unfold Number_toFixed.
  destruct (Z.ltb_spec (Z.of_nat f) 0) as [|_]; [lia |].
  destruct (Z.ltb_spec 100 (Z.of_nat f)) as [|_]; [lia |].
  cbn [orb]. rewrite Nat2Z.id.
  destruct x as [s | s | | s m e]; cbn [reads_back].
  - eexists; split; [reflexivity |]. now destruct f as [|[|f]]; [| | lia].
  - eexists; split; [reflexivity |].
    now destruct s, f as [|[|f]]; try lia.
  - eexists; split; [reflexivity |]. now destruct f as [|[|f]]; [| | lia].
  - destruct (ratio m e) as [N D] eqn:R.
    destruct (ratio_pos _ _ _ _ R) as [HN HD].
    destruct (nearest_spec N D f HN HD) as [P Q].
    destruct (Z.leb_spec (10 ^ 21 * D) N) as [G | L].
    + eexists; split; [reflexivity |]. lia.
    + eexists; split; [reflexivity |]. intros _.
      exists (nearest N D f). split; [| exact Q].
      rewrite fixed_notation_upto_1 by assumption.
      now apply read_fixed_numeral.
Qed.

End Reading.

(** ** The percentages at their edges *)

Section FurtherPercentages.

Variable data : DashboardData.


Lemma edge_display (x : number) (f : nat) :
  (f <= 1)%nat ->
  (forall st : bool,
     data.(totalPatients) = S754_zero st ->
     Number_toFixed (percentage x data) (Z.of_nat f)
     = Normal match nonzero_sign x with
              | Some sx => if xorb sx st then "-Infinity" else "Infinity"
              | None => "NaN"
              end) /\
  (is_zero x = true ->
   is_zero data.(totalPatients) = false ->
   data.(totalPatients) <> NaN ->
   Number_toFixed (percentage x data) (Z.of_nat f) = Normal (numeral 0 f)).
Proof.
  intros F. unfold percentage. split.
  - intros st ->.
    destruct x as [sx | sx | | sx m e], st, f as [|[|f]]; try lia;
      try destruct sx; reflexivity.
  - destruct x as [sx | | |]; try discriminate. intros _ Z N.
    destruct (totalPatients data) as [st | st | | st m e];
      try discriminate Z; try (now elim N);
      destruct f as [|[|f]]; try lia; reflexivity.
Qed.

(** X7. With [totalPatients] zero, each of the five percentages displays
    ["NaN"] when its numerator is zero or [NaN], and otherwise ["Infinity"],
    or ["-Infinity"] when the numerator and the zero differ in sign. A zero
    numerator over any other total displays zero (["0.0"], or ["0"] for the
    insights) without a sign. *)
Theorem edge_displays :
  Forall
    (fun '(x, f, c) =>
       (forall st : bool,
          data.(totalPatients) = S754_zero st ->
          c = Normal match nonzero_sign x with
                     | Some sx => if xorb sx st then "-Infinity" else "Infinity"
                     | None => "NaN"
                     end) /\
       (is_zero x = true ->
        is_zero data.(totalPatients) = false ->
        data.(totalPatients) <> NaN ->
        c = Normal (numeral 0 f)))
    (percentages data).
Proof.
  unfold percentages, femalePercent, malePercent, contactRate, agingPercent,
    noContactPercent.
  repeat (apply Forall_cons;
          [apply (edge_display _ 1) || apply (edge_display _ 0); lia |]).
  apply Forall_nil.
Qed.

(** X8. None of the five percentages throws, and each display reads back:
    a value that is not finite gives a display that is no numeral; a finite
    value below [10^21] gives a numeral with one decimal place (none for the
    insights) whose sign is that of the value and whose magnitude is the
    multiple of 0.1 (of 1) nearest to the value's, the larger on a tie. The
    same holds of the label of a slice of the contact pie, before its
    percent sign. *)
Theorem displays_read_back :
  Forall
    (fun '(x, f, c) =>
       exists str : string,
         c = Normal str /\ reads_back f (percentage x data) str)
    (percentages data) /\
  forall percent : number,
    exists str : string,
      View.contactLabel percent = Normal (str ++ "%") /\
      reads_back 0 (Number_multiply percent (of_Z 100)) str.
Proof.
  split.
  - unfold percentages, femalePercent, malePercent, contactRate,
      agingPercent, noContactPercent.
    repeat (apply Forall_cons;
            [apply (Number_toFixed_reads_back _ 1)
             || apply (Number_toFixed_reads_back _ 0); lia |]).
    apply Forall_nil.
  - intros percent. unfold View.contactLabel.
    destruct (Number_toFixed_reads_back
                (Number_multiply percent (of_Z 100)) 0) as (str & E & R);
      [lia |].
    exists str. cbn [Z.of_nat] in E. now rewrite E.
Qed.

End FurtherPercentages.

(** X9. The five percentages and the two insight texts do not depend on
    the order in which [genderDistribution], [ageGroups] and
    [contactAvailability] list their properties, nor on the other
    distributions. *)
Theorem percentages_order_independent (d1 d2 : DashboardData) :
  d1.(totalPatients) = d2.(totalPatients) ->
  NoDup (keys d1.(genderDistribution)) ->
  NoDup (keys d1.(ageGroups)) ->
  NoDup (keys d1.(contactAvailability)) ->
  Permutation d1.(genderDistribution) d2.(genderDistribution) ->
  Permutation d1.(ageGroups) d2.(ageGroups) ->
  Permutation d1.(contactAvailability) d2.(contactAvailability) ->
  femalePercent d1 = femalePercent d2 /\
  malePercent d1 = malePercent d2 /\
  contactRate d1 = contactRate d2 /\
  agingPercent d1 = agingPercent d2 /\
  agingDescription d1 = agingDescription d2 /\
  noContactPercent d1 = noContactPercent d2 /\
  contactGapDescription d1 = contactGapDescription d2.
Proof.
  intros T Ng Na Nc Pg Pa Pc.
  unfold agingDescription, contactGapDescription, femalePercent, malePercent,
    contactRate, agingPercent, noContactPercent, over60, percentage, lookup.
  rewrite T.
  rewrite !(assoc_Permutation _ _ _ Ng Pg), !(assoc_Permutation _ _ _ Na Pa),
    !(assoc_Permutation _ _ _ Nc Pc).
  repeat split.
Qed.

(** ** The rendered page *)

Section Page.

Variable toLocaleString : number -> string.

Lemma descriptions_complete (data : DashboardData) :
  exists female male rate aging gap : string,
    femalePercent data = Normal female /\
    malePercent data = Normal male /\
    contactRate data = Normal rate /\
    agingDescription data = Normal aging /\
    contactGapDescription data = Normal gap.
Proof.
  unfold agingDescription, contactGapDescription, femalePercent, malePercent,
    contactRate, agingPercent, noContactPercent.
  destruct (Number_toFixed_reads_back
              (percentage
                 (ToNumber (lookup (genderDistribution data) "Female")) data) 1)
    as (s1 & E1 & _); [lia |].
  destruct (Number_toFixed_reads_back
              (percentage
                 (ToNumber (lookup (genderDistribution data) "Male")) data) 1)
    as (s2 & E2 & _); [lia |].
  destruct (Number_toFixed_reads_back
              (percentage
                 (Number_add
                    (ToNumber (lookup (contactAvailability data) "homePhone"))
                    (ToNumber (lookup (contactAvailability data) "mobilePhone")))
                 data) 1)
    as (s3 & E3 & _); [lia |].
  destruct (Number_toFixed_reads_back (percentage (over60 data) data) 0)
    as (s4 & E4 & _); [lia |].
  destruct (Number_toFixed_reads_back
              (percentage
                 (ToNumber (lookup (contactAvailability data) "noContact"))
                 data) 0)
    as (s5 & E5 & _); [lia |].
  cbn [Z.of_nat Pos.of_succ_nat] in *.
  rewrite E1, E2, E3, E4, E5. cbn [bind].
  repeat eexists.
Qed.

(** X10. While there is no snapshot the component renders the loading
    screen. With a snapshot, rendering completes exactly when
    [genderDistribution] has the keys [Female] and [Male] and
    [contactAvailability] has [noContact]: if one of them is missing,
    rendering throws a [TypeError], and nothing else in the snapshot (a zero
    [totalPatients], a missing age bucket, a missing phone count) stops
    it. *)
Theorem Dashboard_completes (data : DashboardData) :
  View.Dashboard toLocaleString None = Normal View.Loading /\
  (lookup data.(genderDistribution) "Female" <> None /\
   lookup data.(genderDistribution) "Male" <> None /\
   lookup data.(contactAvailability) "noContact" <> None ->
   exists v : View.view,
     View.Dashboard toLocaleString (Some data) = Normal (View.Loaded v)) /\
  (lookup data.(genderDistribution) "Female" = None \/
   lookup data.(genderDistribution) "Male" = None \/
   lookup data.(contactAvailability) "noContact" = None ->
   View.Dashboard toLocaleString (Some data) = Throw TypeError).
Proof.
  split; [reflexivity |].
  destruct (descriptions_complete data)
    as (female & male & rate & aging & gap & E1 & E2 & E3 & E4 & E5).
  unfold View.Dashboard. rewrite E1, E2, E3, E4, E5. cbn [bind].
  destruct (lookup (genderDistribution data) "Female") as [f|];
    destruct (lookup (genderDistribution data) "Male") as [m|];
    destruct (lookup (contactAvailability data) "noContact") as [n|];
    cbn [View.call_toLocaleString bind];
    (split;
     [ intros (F & M & N); try congruence; eexists; reflexivity
     | intros [F | [M | N]]; try discriminate; reflexivity ]).
Qed.

(** X11. The rendered page does not depend on [surgeryStats]: two
    snapshots that differ at most there render alike. The Primary Surgery
    insight in particular is the same card, "71%" at Rother House, for
    every snapshot that renders. *)
Theorem Dashboard_ignores_surgeryStats (d1 d2 : DashboardData) :
  (d1.(totalPatients) = d2.(totalPatients) ->
   d1.(genderDistribution) = d2.(genderDistribution) ->
   d1.(ethnicityDistribution) = d2.(ethnicityDistribution) ->
   d1.(ageGroups) = d2.(ageGroups) ->
   d1.(prescriberStats) = d2.(prescriberStats) ->
   d1.(contactAvailability) = d2.(contactAvailability) ->
   View.Dashboard toLocaleString (Some d1)
   = View.Dashboard toLocaleString (Some d2)) /\
  forall v : View.view,
    View.Dashboard toLocaleString (Some d1) = Normal (View.Loaded v) ->
    nth_error v.(View.insight_cards) 1
    = Some (View.InsightCard "" "Primary Surgery"
              "Rother House handles 71% of all patients, making it the primary healthcare provider in this dataset."
              "71%" "at Rother House").
Proof.
  split.
  - destruct d1 as [t1 g1 e1 a1 p1 s1 c1], d2 as [t2 g2 e2 a2 p2 s2 c2].
    cbn [totalPatients genderDistribution ethnicityDistribution ageGroups
         prescriberStats contactAvailability].
    now intros -> -> -> -> -> ->.
  - intros v. unfold View.Dashboard.
    destruct (femalePercent d1); [| discriminate].
    destruct (malePercent d1); [| discriminate].
    destruct (contactRate d1); [| discriminate].
    destruct (View.call_toLocaleString toLocaleString
                (lookup (genderDistribution d1) "Female")); [| discriminate].
    destruct (View.call_toLocaleString toLocaleString
                (lookup (genderDistribution d1) "Male")); [| discriminate].
    destruct (agingDescription d1); [| discriminate].
    destruct (contactGapDescription d1); [| discriminate].
    destruct (View.call_toLocaleString toLocaleString
                (lookup (contactAvailability d1) "noContact"));
      [| discriminate].
    cbn [bind]. now intros [= <-].
Qed.

End Page.

(** ** The further theorems at concrete snapshots *)

Lemma ageData_records_witness :
  exists fill : string,
    nth_error CHART_COLORS (10 mod 10) = Some fill /\
    nth_error
      (ageData
         (Examples.set_ageGroups
            (Examples.counts
               [ ("0-4", 1%Z); ("5-9", 2%Z); ("10-14", 3%Z); ("15-19", 4%Z);
                 ("20-29", 5%Z); ("30-39", 6%Z); ("40-49", 7%Z);
                 ("50-59", 8%Z); ("60-74", 9%Z); ("75-99", 10%Z);
                 ("100+", 11%Z) ])
            Examples.thousand)) 10
    = Some [ ("name", VString "100+");
             ("value", VNumber (of_Z 11));
             ("fill", VString fill) ].
Proof.
  apply (proj2 (ageData_records _) 10 "100+" (of_Z 11)). reflexivity.
Defined.

Lemma fills_distinct_witness :
  NoDup (map (fun r => Get r "fill") (ageData Examples.thousand)).
Proof.
  apply (proj2 (proj2 (proj2 (fills_distinct Examples.thousand)))).
  cbn. lia.
Defined.


Lemma edge_displays_witness :
  femalePercent
    (Examples.set_totalPatients (S754_zero true) Examples.thousand)
  = Normal "-Infinity".
Proof.
  exact (proj1 (Forall_inv
                  (edge_displays
                     (Examples.set_totalPatients (S754_zero true)
                        Examples.thousand)))
           true eq_refl).
Defined.

Lemma percentages_order_independent_witness :
  femalePercent
    {| totalPatients := of_Z 1000;
       genderDistribution := Examples.counts [("Male", 480%Z); ("Female", 520%Z)];
       ethnicityDistribution := [];
       ageGroups := Examples.thousand.(ageGroups);
       prescriberStats := [];
       surgeryStats := [];
       contactAvailability := Examples.thousand.(contactAvailability) |}
  = femalePercent Examples.thousand.
Proof.
  symmetry.
  apply (percentages_order_independent Examples.thousand
           {| totalPatients := of_Z 1000;
              genderDistribution :=
                Examples.counts [("Male", 480%Z); ("Female", 520%Z)];
              ethnicityDistribution := [];
              ageGroups := Examples.thousand.(ageGroups);
              prescriberStats := [];
              surgeryStats := [];
              contactAvailability := Examples.thousand.(contactAvailability) |}).
  - reflexivity.
  - repeat constructor; simpl; intuition discriminate.
  - repeat constructor; simpl; intuition discriminate.
  - repeat constructor; simpl; intuition discriminate.
  - apply perm_swap.
  - apply Permutation_refl.
  - apply Permutation_refl.
Defined.

Lemma Dashboard_completes_witness :
  View.Dashboard (fun _ => "n")
    (Some (Examples.set_contactAvailability
             (Examples.counts [("mobilePhone", 600%Z); ("homePhone", 150%Z)])
             Examples.thousand))
  = Throw TypeError.
Proof.
  apply (proj2 (proj2 (Dashboard_completes (fun _ => "n") _))).
  right; right; reflexivity.
Defined.

Lemma Dashboard_ignores_surgeryStats_witness :
  View.Dashboard (fun _ => "n")
    (Some (Examples.set_surgeryStats [] Examples.thousand))
  = View.Dashboard (fun _ => "n") (Some Examples.thousand).
Proof.
  apply (proj1 (Dashboard_ignores_surgeryStats (fun _ => "n")
                  (Examples.set_surgeryStats [] Examples.thousand)
                  Examples.thousand));
    reflexivity.
Defined.

(** ** When a percentage is not a number *)

Section NotANumber.

Local Open Scope Z_scope.

Lemma shr_1_nonneg (mrs : shr_record) :
  0 <= shr_m mrs -> 0 <= shr_m (shr_1 mrs).
Proof.
  destruct mrs as [m r s]. destruct m as [|p|p]; cbn; try lia;
    destruct p; cbn; lia.
Qed.

Lemma iter_pos_invariant {A : Type} (I : A -> Prop) (f : A -> A) :
  (forall a, I a -> I (f a)) ->
  forall (p : positive) (a : A), I a -> I (iter_pos f p a).
Proof. intros H p; induction p as [p IH|p IH|]; cbn; auto. Qed.

Lemma shr_fexp_nonneg (m e : Z) (l : location) :
  0 <= m -> 0 <= shr_m (fst (shr_fexp prec emax m e l)).
Proof.
  intros H. unfold shr_fexp, shr.
  assert (S : 0 <= shr_m (shr_record_of_loc m l))
    by (destruct l as [|[]]; exact H).
  destruct (fexp prec emax (Zdigits2 m + e) - e); cbn [fst]; try exact S.
  apply (iter_pos_invariant (fun mrs => 0 <= shr_m mrs));
    [exact shr_1_nonneg | exact S].
Qed.

Lemma round_nearest_even_nonneg (m : Z) (l : location) :
  0 <= m -> 0 <= round_nearest_even m l.
Proof.
  intros H. destruct l as [|[]]; cbn; try destruct (Z.even m); lia.
Qed.

(** Rounding a non-negative mantissa never gives [NaN]. *)
Lemma binary_round_aux_number (sx : bool) (mx ex : Z) (lx : location) :
  0 <= mx -> binary_round_aux prec emax sx mx ex lx <> NaN.
Proof.
  intros H. unfold binary_round_aux.
  pose proof (shr_fexp_nonneg mx ex lx H) as H1.
  destruct (shr_fexp prec emax mx ex lx) as [mrs' e']. cbn [fst] in H1.
  pose proof (shr_fexp_nonneg
                (round_nearest_even (shr_m mrs') (loc_of_shr_record mrs'))
                e' loc_Exact
                (round_nearest_even_nonneg _ _ H1)) as H2.
  destruct (shr_fexp prec emax _ e' loc_Exact) as [mrs'' e''].
  cbn [fst] in H2.
  destruct (shr_m mrs''); [discriminate | | lia].
  destruct (e'' <=? emax - prec); discriminate.
Qed.

Lemma divide_finite_number (sx sy : bool) (mx my : positive) (ex ey : Z) :
  Number_divide (S754_finite sx mx ex) (S754_finite sy my ey) <> NaN.
Proof.
  unfold Number_divide, SFdiv, SFdiv_core_binary.
  set (d := Z.min _ _). set (s := ex - ey - d).
  set (m' := match s with
             | 0 => Z.pos mx
             | Z.pos _ => Z.shiftl (Z.pos mx) s
             | Z.neg _ => 0
             end).
  assert (M : 0 <= m')
    by (unfold m'; destruct s; try lia; now apply Z.shiftl_nonneg).
  pose proof (Z.div_pos m' (Z.pos my) M ltac:(lia)) as Q.
  unfold Z.div in Q.
  destruct (Z.div_eucl m' (Z.pos my)) as [q r].
  now apply binary_round_aux_number.
Qed.

Lemma multiply_finite_number (sx sy : bool) (mx my : positive) (ex ey : Z) :
  Number_multiply (S754_finite sx mx ex) (S754_finite sy my ey) <> NaN.
Proof. apply binary_round_aux_number. lia. Qed.

(** A quotient is [NaN] exactly when an operand is, or both operands are
    zero, or both are infinite. *)
Lemma Number_divide_NaN (x y : number) :
  Number_divide x y = NaN <->
  x = NaN \/ y = NaN \/
  (is_zero x = true /\ is_zero y = true) \/
  (is_infinite x = true /\ is_infinite y = true).
Proof.
  destruct x as [sx | sx | | sx mx ex], y as [sy | sy | | sy my ey];
    try (cbn; split; [discriminate | intuition discriminate]);
    try (cbn; split; [intros _; auto 6 | reflexivity]).
  split; [intros H; now apply divide_finite_number in H
         | cbn; intuition discriminate].
Qed.

Lemma times_100_NaN (q : number) :
  Number_multiply q (of_Z 100) = NaN <-> q = NaN.
Proof.
  destruct q as [s | s | | s m e]; try (split; [discriminate | discriminate]).
  - split; reflexivity.
  - split; [| discriminate]. intros H. exfalso. revert H.
    replace (of_Z 100) with (S754_finite false 7036874417766400 (-46))
      by reflexivity.
    apply multiply_finite_number.
Qed.

Lemma decimal_head_any (z : Z) :
  exists (d : Z) (r : string), 0 <= d < 10 /\ decimal z = String (digit d) r.
Proof.
  unfold decimal. generalize (Z.to_nat (Z.log2 z)) as fuel, "" as acc.
  intros fuel; revert z; induction fuel as [|fuel IH]; intros z acc; cbn.
  - exists (z mod 10). eexists. split; [apply Z.mod_pos_bound; lia | reflexivity].
  - destruct (z <? 10); [| apply IH].
    exists (z mod 10). eexists. split; [apply Z.mod_pos_bound; lia | reflexivity].
Qed.

Lemma digit_not_N (d : Z) : 0 <= d < 10 -> digit d <> "N"%char.
Proof.
  intros H. apply digit_cases in H.
  repeat (destruct H as [-> | H]; [discriminate |]). subst. discriminate.
Qed.

Lemma Number_toString_finite (s : bool) (m : positive) (e : Z) :
  exists (d : Z) (r : string),
    0 <= d < 10 /\ Number_toString (S754_finite s m e) = String (digit d) r.
Proof.
  unfold Number_toString.
  destruct (shortest _ _ _ _ _) as [[sd n] k].
  destruct (decimal_head_any sd) as (d & r & D & E).
  exists d. rewrite E. destruct (k =? 1); eexists; (split; [exact D |]);
    reflexivity.
Qed.

(** [toFixed] writes ["NaN"] for [NaN] only. *)
Lemma Number_toFixed_NaN (x : number) (f : nat) :
  (f <= 1)%nat ->
  Number_toFixed x (Z.of_nat f) = Normal "NaN" <-> x = NaN.
Proof.
  intros F. split; [| intros ->; now destruct f as [|[|f]]; [| | lia]].
  destruct x as [s | s | | s m e]; [| | reflexivity |].
  - destruct f as [|[|f]]; [| | lia]; discriminate.
  - destruct s, f as [|[|f]]; try lia; discriminate.
  - unfold Number_toFixed.
    destruct (Z.ltb_spec (Z.of_nat f) 0) as [|_]; [lia |].
    destruct (Z.ltb_spec 100 (Z.of_nat f)) as [|_]; [lia |].
    cbn [orb]. rewrite Nat2Z.id.
    destruct (ratio m e) as [N D] eqn:R.
    destruct (ratio_pos _ _ _ _ R) as [HN HD].
    destruct (Z.leb_spec (10 ^ 21 * D) N) as [G | L].
    + destruct (Number_toString_finite false m e) as (d & r & Dd & ->).
      destruct s; [discriminate |]. cbn [append].
      intros [= E _]. now apply digit_not_N in E.
    + destruct (nearest_spec N D f HN HD) as [P _].
      rewrite fixed_notation_upto_1 by assumption.
      intros [= E]. exfalso.
      pose proof (read_fixed_numeral s (nearest N D f) f P F) as Rd.
      rewrite E in Rd. destruct f as [|[|f]]; [| | lia]; discriminate Rd.
Qed.

(** X12. A percentage displays ["NaN"] exactly when its numerator or
    [totalPatients] is [NaN], or both are zero, or both are infinite: a
    missing key, or a zero count over a zero total. No other snapshot makes
    the page show ["NaN%"]. *)
Theorem NaN_displays (data : DashboardData) :
  Forall
    (fun '(x, f, c) =>
       c = Normal "NaN" <->
       x = NaN \/ data.(totalPatients) = NaN \/
       (is_zero x = true /\ is_zero data.(totalPatients) = true) \/
       (is_infinite x = true /\ is_infinite data.(totalPatients) = true))
    (percentages data).
Proof.
  assert (H : forall (x : number) (f : nat),
             (f <= 1)%nat ->
             Number_toFixed (percentage x data) (Z.of_nat f) = Normal "NaN" <->
             x = NaN \/ data.(totalPatients) = NaN \/
             (is_zero x = true /\ is_zero data.(totalPatients) = true) \/
             (is_infinite x = true /\
              is_infinite data.(totalPatients) = true)).
  { intros x f F. unfold percentage.
    now rewrite Number_toFixed_NaN, times_100_NaN, Number_divide_NaN. }
  unfold percentages, femalePercent, malePercent, contactRate, agingPercent,
    noContactPercent.
  repeat (apply Forall_cons; [apply (H _ 1%nat) || apply (H _ 0%nat); lia |]).
  apply Forall_nil.
Qed.

End NotANumber.

(** ** Sums of counts *)

Lemma binary_normalize_number (z e : Z) :
  binary_normalize prec emax z e false <> NaN.
Proof.
  unfold binary_normalize, binary_round.
  destruct z as [|m|m]; [discriminate | |];
    destruct (shl_align m e _) as [mz ez];
    apply binary_round_aux_number; lia.
Qed.

(** A sum is [NaN] only if an operand is, or both operands are infinite. *)
Lemma Number_add_number (a b : number) :
  a <> NaN -> b <> NaN ->
  is_infinite a = false \/ is_infinite b = false ->
  Number_add a b <> NaN.
Proof.
  intros A B I. unfold NaN in *.
  destruct a as [sa | sa | | sa ma ea], b as [sb | sb | | sb mb eb];
    try congruence; try (destruct I; discriminate);
    try (destruct sa, sb; discriminate); try discriminate.
  apply binary_normalize_number.
Qed.

(** X14. The numerators that are sums are numbers whenever their counts
    are: with the three age buckets present and finite, the count of
    patients over 60 is not [NaN], and with both phone counts present and
    finite neither is the numerator of the contact rate. *)
Theorem sums_are_numbers (data : DashboardData) :
  (forall a b c : number,
     lookup data.(ageGroups) "60-74" = Some a ->
     lookup data.(ageGroups) "75-99" = Some b ->
     lookup data.(ageGroups) "100+" = Some c ->
     is_finite a = true -> is_finite b = true -> is_finite c = true ->
     over60 data <> NaN) /\
  (forall h m : number,
     lookup data.(contactAvailability) "homePhone" = Some h ->
     lookup data.(contactAvailability) "mobilePhone" = Some m ->
     is_finite h = true -> is_finite m = true ->
     Number_add (ToNumber (lookup data.(contactAvailability) "homePhone"))
                (ToNumber (lookup data.(contactAvailability) "mobilePhone"))
     <> NaN).
Proof.
  assert (F : forall x : number,
             is_finite x = true -> x <> NaN /\ is_infinite x = false)
    by (intros x H; destruct x; try discriminate H;
        split; (discriminate || reflexivity)).
  split.
  - unfold over60. intros a b c -> -> -> Fa Fb Fc. cbn [ToNumber].
    destruct (F a Fa), (F b Fb), (F c Fc).
    apply Number_add_number; auto. apply Number_add_number; auto.
  - intros h m -> -> Fh Fm. cbn [ToNumber].
    destruct (F h Fh), (F m Fm). apply Number_add_number; auto.
Qed.

Lemma sums_are_numbers_witness : over60 Examples.thousand <> NaN.
Proof.
  apply (proj1 (sums_are_numbers Examples.thousand)
           (of_Z 200) (of_Z 100) (of_Z 10)); reflexivity.
Defined.
